(** * The Cumulus monthly-log importer (bin/weeimport/cumulusimport.py)

    A shallow embedding of [CumulusSource]: its construction (unit
    resolution, period catalogue), [getRawData] (line clean-up, reader,
    field map) and [period_generator], with the properties of the import
    pipeline proved over it. *)

From Stdlib Require Import Ascii String.
From stdpp Require Import base option list sorting gmap strings.


(** ** Python 2 [str] operations used by the module

    A Python 2 [str] is a byte string: [string] (8-bit characters). *)
Module PyStr.

(** [s1 in s2] for two strings. *)
Fixpoint contains (sub s : string) : bool :=
  String.prefix sub s ||
  match s with
  | EmptyString => false
  | String _ r => contains sub r
  end.

(** [c in s] for one character. *)
Fixpoint has_char (c : ascii) (s : string) : bool :=
  match s with
  | EmptyString => false
  | String a r => Ascii.eqb a c || has_char c r
  end.

(** Is another replacement allowed under [count]?  [None] is "no limit". *)
Definition more (count : option nat) : bool :=
  match count with
  | None => true
  | Some n => negb (Nat.eqb n 0)
  end.

Definition used (count : option nat) : option nat :=
  match count with
  | None => None
  | Some n => Some (Nat.pred n)
  end.

(** [replace_interleave]: the empty pattern matches before every
    character and at the end; [n] matches are still to be laid down. *)
Fixpoint interleave (new : string) (n : nat) (s : string) : string :=
  match n with
  | 0 => s
  | S n' =>
      new +:+ match s with
              | EmptyString => EmptyString
              | String c r => String c (interleave new n' r)
              end
  end.

(** Left-to-right scan for a non-empty pattern; [skip] characters of the
    occurrence just replaced are still to be passed over. *)
Fixpoint replace_go (old new : string) (skip : nat) (count : option nat)
    (s : string) : string :=
  match s with
  | EmptyString => EmptyString
  | String c r =>
      match skip with
      | S k => replace_go old new k count r
      | 0 =>
          if more count && String.prefix old s
          then new +:+ replace_go old new (String.length old - 1) (used count) r
          else String c (replace_go old new 0 count r)
      end
  end.

(** [s.replace(old, new)] ([count = None]) and [s.replace(old, new, n)]
    ([count = Some n]).  With a count, CPython 2 returns the string
    itself when the count is 0 or the string is empty. *)
Definition replace (old new : string) (count : option nat) (s : string)
    : string :=
  match count, s with
  | Some 0, _ => s
  | Some _, EmptyString => s
  | _, _ =>
      match old with
      | EmptyString =>
          match new with
          | EmptyString => s
          | _ =>
              let n := S (String.length s) in
              interleave new (match count with
                              | Some m => Nat.min m n
                              | None => n
                              end) s
          end
      | _ => replace_go old new 0 count s
      end
  end.

(** Put [c] in front of the first field of a split. *)
Definition cons_head (c : ascii) (fields : list string) : list string :=
  match fields with
  | [] => [String c EmptyString]
  | f :: fs => String c f :: fs
  end.

Fixpoint split_go (sep : string) (skip : nat) (s : string) : list string :=
  match s with
  | EmptyString => [EmptyString]
  | String c r =>
      match skip with
      | S k => split_go sep k r
      | 0 =>
          if String.prefix sep s
          then EmptyString :: split_go sep (String.length sep - 1) r
          else cons_head c (split_go sep 0 r)
      end
  end.

(** [s.split(sep)]; an empty separator raises [ValueError] ([None]). *)
Definition split (sep s : string) : option (list string) :=
  match sep with
  | EmptyString => None
  | _ => Some (split_go sep 0 s)
  end.

(** [s[-a:-b]] for [b <= a]: both ends are clipped at the start. *)
Definition slice_from_end (a b : nat) (s : string) : string :=
  let n := String.length s in
  String.substring (n - a) ((n - b) - (n - a)) s.

Definition lower_char (c : ascii) : ascii :=
  let n := nat_of_ascii c in
  if (65 <=? n)%nat && (n <=? 90)%nat then ascii_of_nat (n + 32) else c.

(** [s.lower()] in the C locale: only [A-Z] change. *)
Fixpoint lower (s : string) : string :=
  match s with
  | EmptyString => EmptyString
  | String c r => String (lower_char c) (lower r)
  end.

(** ['%s' % v] for a value that is a string or [None]. *)
Definition render (v : option string) : string :=
  match v with
  | Some s => s
  | None => "None"
  end.

End PyStr.

(** ** Data model *)

(** A value of the import configuration (a ConfigObj section): a scalar
    option or a sub-section.  The options of a sub-section are strings. *)
Inductive cfg_value :=
  | Scalar (s : string)
  | Sect (d : gmap string string).

(** One entry of [_header_map]: [{'units': ..., 'map_to': ...}], where
    ['units'] may be missing. *)
Record FieldSpec := mkFieldSpec {
  units : option string;
  map_to : string
}.

(** The exceptions the module raises or lets through. *)
Inductive exn :=
  | UnitError (msg : string)
  | ViolatedPrecondition (msg : string)
  | WeeImportIOError (msg : string)
  | KeyError (key : string)
  | AttributeError
  | TypeError
  | ValueError.

Inductive res (A : Type) :=
  | Ok (a : A)
  | Raise (e : exn).
Arguments Ok {A} a.
Arguments Raise {A} e.

(** The file system the importer reads: a directory lists its entries in
    the order the operating system returns them; a file holds the lines
    [readlines] returns. *)
Inductive fs_node :=
  | Dir (names : list string)
  | File (lines : list string).

(** What [csv.DictReader] is created over: the cleaned lines, the field
    names and the delimiter.  The reader is lazy: no row is parsed when it
    is created. *)
Record Reader := mkReader {
  rd_lines : list string;
  rd_fieldnames : list string;
  rd_delimiter : ascii
}.

(** The four quantities whose units the configuration declares, in the
    order [__init__] resolves them. *)
Inductive quantity := Temperature | Pressure | Rain | Speed.

Definition qkey (q : quantity) : string :=
  match q with
  | Temperature => "temperature"
  | Pressure => "pressure"
  | Rain => "rain"
  | Speed => "speed"
  end.

Definition quantities : list quantity := [Temperature; Pressure; Rain; Speed].

(** Dict to lookup rainRate units given rain units. *)
Definition rain_units_dict : gmap string string :=
  <["inch" := "inch_per_hour"]> (<["mm" := "mm_per_hour"]> ∅).

Definition _field_list : list string :=
  ["datetime"; "cur_out_temp"; "cur_out_hum";
   "cur_dewpoint"; "avg_wind_speed"; "gust_wind_speed";
   "avg_wind_bearing"; "cur_rain_rate"; "day_rain"; "cur_slp";
   "rain_counter"; "curr_in_temp"; "cur_in_hum";
   "lastest_wind_gust"; "cur_windchill"; "cur_heatindex";
   "cur_uv"; "cur_solar"; "cur_et"; "annual_et";
   "cur_app_temp"; "cur_tmax_solar"; "day_sunshine_hours";
   "cur_wind_bearing"; "day_rain_rg11"; "midnight_rain"].

(** The class attribute [_header_map] as the class body creates it. *)
Definition _header_map : gmap string FieldSpec :=
  list_to_map
    [("datetime", mkFieldSpec (Some "unix_epoch") "dateTime");
     ("cur_out_temp", mkFieldSpec None "outTemp");
     ("curr_in_temp", mkFieldSpec None "inTemp");
     ("cur_dewpoint", mkFieldSpec None "dewpoint");
     ("cur_slp", mkFieldSpec None "barometer");
     ("avg_wind_bearing", mkFieldSpec (Some "degree_compass") "windDir");
     ("avg_wind_speed", mkFieldSpec None "windSpeed");
     ("cur_heatindex", mkFieldSpec None "heatindex");
     ("gust_wind_speed", mkFieldSpec None "windGust");
     ("cur_windchill", mkFieldSpec None "windchill");
     ("cur_out_hum", mkFieldSpec (Some "percent") "outHumidity");
     ("cur_in_hum", mkFieldSpec (Some "percent") "inHumidity");
     ("midnight_rain", mkFieldSpec None "rain");
     ("cur_rain_rate", mkFieldSpec None "rainRate");
     ("cur_solar", mkFieldSpec (Some "watt_per_meter_squared") "radiation");
     ("cur_uv", mkFieldSpec (Some "uv_index") "UV");
     ("cur_app_temp", mkFieldSpec None "appTemp")].

(** The mutable state outside any one instance: the class attribute
    [CumulusSource._header_map], which every instance reaches through
    [self._header_map], and a record of the effects the claims speak of:
    the files opened and the readers [parseMap] was called on. *)
Record World := mkWorld {
  header_map : gmap string FieldSpec;
  opened : list string;
  map_builds : list Reader
}.

Definition world0 : World := mkWorld _header_map [] [].

(** ** A state-and-exception monad *)

Definition M (A : Type) : Type := World -> res A * World.

Definition ret {A} (a : A) : M A := fun w => (Ok a, w).
Definition raise {A} (e : exn) : M A := fun w => (Raise e, w).
Definition bind {A B} (m : M A) (k : A -> M B) : M B :=
  fun w => match m w with
           | (Ok a, w') => k a w'
           | (Raise e, w') => (Raise e, w')
           end.
Definition lift {A} (r : res A) : M A := fun w => (r, w).

Notation "'let*' x ':=' m 'in' k" := (bind m (fun x => k))
  (at level 10, x name, m at level 200, k at level 200).
Notation "'exec' m 'then' k" := (bind m (fun _ => k))
  (at level 10, m at level 200, k at level 200).

(** [self._header_map[field]['units'] = u] *)
Definition set_units (field u : string) : M unit :=
  fun w =>
    match header_map w !! field with
    | Some spec =>
        (Ok tt,
         mkWorld (<[field := mkFieldSpec (Some u) (map_to spec)]> (header_map w))
                 (opened w) (map_builds w))
    | None => (Raise (KeyError field), w)
    end.

(** [open(period, 'r')] followed by [readlines]. *)
Definition log_open (path : string) : M unit :=
  fun w => (Ok tt, mkWorld (header_map w) (opened w ++ [path]) (map_builds w)).

Definition log_build (r : Reader) : M unit :=
  fun w => (Ok tt, mkWorld (header_map w) (opened w) (map_builds w ++ [r])).

(** ** Helpers of the catalogue: [glob], [strptime] and [sorted] *)

(** [fnmatch] for a pattern of literal characters and [?]. *)
Fixpoint fnmatch (pat name : string) : bool :=
  match pat, name with
  | EmptyString, EmptyString => true
  | String p pr, String c nr =>
      (Ascii.eqb p "?" || Ascii.eqb p c) && fnmatch pr nr
  | _, _ => false
  end.

(** A pattern that does not start with a dot skips the hidden entries. *)
Definition visible (name : string) : bool :=
  match name with
  | String c _ => negb (Ascii.eqb c ".")
  | EmptyString => true
  end.

Definition log_pattern : string := "?????log.txt".

Definition join (dir name : string) : string := dir +:+ "/" +:+ name.

(** [glob.glob(source + '/?????log.txt')] for a literal directory
    [source]: the entries of the directory that match, in listing order,
    each joined to the directory.  A path that is not a directory has no
    match. *)
Definition glob (fs : gmap string fs_node) (source : string) : list string :=
  match fs !! source with
  | Some (Dir names) =>
      join source <$>
        List.filter (fun n => visible n && fnmatch log_pattern n) names
  | _ => []
  end.

(** [os.path.isfile] *)
Definition isfile (fs : gmap string fs_node) (path : string) : bool :=
  match fs !! path with
  | Some (File _) => true
  | _ => false
  end.

Definition readlines (fs : gmap string fs_node) (path : string) : list string :=
  match fs !! path with
  | Some (File lines) => lines
  | _ => []
  end.

Definition month_abbr : list string :=
  ["jan"; "feb"; "mar"; "apr"; "may"; "jun";
   "jul"; "aug"; "sep"; "oct"; "nov"; "dec"].

Fixpoint index_of (x : string) (l : list string) : option nat :=
  match l with
  | [] => None
  | y :: r => if String.eqb x y then Some 0 else S <$> index_of x r
  end.

(** [time.strptime(s, '%b').tm_mon] in the C locale: the whole of [s],
    whatever its case, must be a month abbreviation; [None] stands for the
    [ValueError] raised otherwise. *)
Definition strptime_b (s : string) : option nat :=
  S <$> index_of (PyStr.lower s) month_abbr.

(** The sort key [(el[1], el[2])]: tuples compare component by component,
    the year fragment as a byte string, the month as a number. *)
Definition key_le (k1 k2 : string * nat) : bool :=
  match String.compare k1.1 k2.1 with
  | Lt => true
  | Eq => (k1.2 <=? k2.2)%nat
  | Gt => false
  end.

(** [sorted(l, key=key)]: a stable sort, so that elements with equal keys
    keep their order. *)
Section Sorted.
Context {A : Type} (key : A -> string * nat).

Fixpoint insert_by (x : A) (l : list A) : list A :=
  match l with
  | [] => [x]
  | y :: r => if key_le (key x) (key y) then x :: y :: r
              else y :: insert_by x r
  end.

Definition py_sorted (l : list A) : list A := foldr insert_by [] l.
End Sorted.

(** The element [(fn, fn[-9:-7], strptime(fn[-12:-9], '%b').tm_mon)] of
    [_temp]. *)
Definition temp_entry (fn : string) : res (string * string * nat) :=
  match strptime_b (PyStr.slice_from_end 12 9 fn) with
  | Some mon => Ok (fn, PyStr.slice_from_end 9 7 fn, mon)
  | None => Raise ValueError
  end.

(** The list comprehension that builds [_temp]: the first file whose month
    does not parse ends it. *)
Fixpoint temp_list (fns : list string) : res (list (string * string * nat)) :=
  match fns with
  | [] => Ok []
  | fn :: r =>
      match temp_entry fn with
      | Raise e => Raise e
      | Ok el =>
          match temp_list r with
          | Raise e => Raise e
          | Ok els => Ok (el :: els)
          end
      end
  end.

Definition entry_key (el : string * string * nat) : string * nat :=
  (el.1.2, el.2).

(** ** class CumulusSource *)

Definition nl : string := String "010"%char EmptyString.

Definition no_units_msg (q : quantity) (path : string) : string :=
  "No units specified for Cumulus " +:+ qkey q +:+ " fields in " +:+ path +:+ ".".

Definition unknown_units_msg (q : quantity) (u : option string) (path : string)
    : string :=
  "Unknown units '" +:+ PyStr.render u +:+ "' specified for Cumulus "
    +:+ qkey q +:+ " fields in " +:+ path +:+ ".".

(** [cumulus_config_dict['Units'].get(key)]: a missing ['Units'] raises
    [KeyError], a scalar ['Units'] has no [get]; a key missing from the
    section gives [None]. *)
Definition units_get (cfg : gmap string cfg_value) (key : string)
    : res (option string) :=
  match cfg !! "Units" with
  | Some (Sect d) => Ok (d !! key)
  | Some (Scalar _) => Raise AttributeError
  | None => Raise (KeyError "Units")
  end.

(** [v in d] for a dict keyed by strings, [v] a string or [None]; gives
    the string when it is a key. *)
Definition checked (v : option string) (ok : string -> bool) : option string :=
  match v with
  | Some u => if ok u then Some u else None
  | None => None
  end.

Definition has_key {B} (d : gmap string B) (u : string) : bool :=
  match d !! u with
  | Some _ => true
  | None => false
  end.

Section CumulusSource.

(** [weewx.units.default_unit_format_dict] and the result type of
    [weeimport.Source.parseMap] belong to modules outside this one. *)
Variable default_unit_format_dict : gmap string string.
Variable FieldMap : Type.

(** The attributes [__init__], [getRawData] and [period_generator] set
    on [self]. *)
Record Instance := mkInstance {
  import_config_path : string;
  cumulus_config_dict : gmap string cfg_value;
  wind_dir : list nat;
  decimal : cfg_value;
  delimiter : cfg_value;
  raw_datetime_format : string;
  rain : string;
  map : option FieldMap;
  source : string;
  log_list : list string;
  first_period : option bool;
  last_period : option bool
}.

(** [self.parseMap], a method of the parent class: a function of its
    arguments and of what it reaches through [self], the class-level
    header map included. *)
Variable parseMap :
  gmap string FieldSpec -> Instance -> string -> Reader ->
  gmap string cfg_value -> FieldMap.

(** The unit set each quantity is checked against. *)
Definition allowed (q : quantity) (u : string) : bool :=
  match q with
  | Temperature => has_key default_unit_format_dict u
  | Pressure => bool_decide (u ∈ ["inHg"; "mbar"; "hPa"])
  | Rain => has_key rain_units_dict u
  | Speed => has_key default_unit_format_dict u
  end.

Definition resolve_temperature (cfg : gmap string cfg_value) (path : string)
    : M unit :=
  match units_get cfg "temperature" with
  | Raise _ => raise (UnitError (no_units_msg Temperature path))
  | Ok temp_u =>
      match checked temp_u (allowed Temperature) with
      | Some u =>
          exec set_units "cur_out_temp" u then
          exec set_units "curr_in_temp" u then
          exec set_units "cur_dewpoint" u then
          exec set_units "cur_heatindex" u then
          exec set_units "cur_windchill" u then
          set_units "cur_app_temp" u
      | None => raise (UnitError (unknown_units_msg Temperature temp_u path))
      end
  end.

Definition resolve_pressure (cfg : gmap string cfg_value) (path : string)
    : M unit :=
  match units_get cfg "pressure" with
  | Raise _ => raise (UnitError (no_units_msg Pressure path))
  | Ok press_u =>
      match checked press_u (allowed Pressure) with
      | Some u => set_units "cur_slp" u
      | None => raise (UnitError (unknown_units_msg Pressure press_u path))
      end
  end.

Definition resolve_rain (cfg : gmap string cfg_value) (path : string)
    : M unit :=
  match units_get cfg "rain" with
  | Raise _ => raise (UnitError (no_units_msg Rain path))
  | Ok rain_u =>
      match checked rain_u (allowed Rain) with
      | Some u =>
          exec set_units "midnight_rain" u then
          match rain_units_dict !! u with
          | Some rate => set_units "cur_rain_rate" rate
          | None => raise (KeyError u)
          end
      | None => raise (UnitError (unknown_units_msg Rain rain_u path))
      end
  end.

Definition resolve_speed (cfg : gmap string cfg_value) (path : string)
    : M unit :=
  match units_get cfg "speed" with
  | Raise _ => raise (UnitError (no_units_msg Speed path))
  | Ok speed_u =>
      match checked speed_u (allowed Speed) with
      | Some u =>
          exec set_units "avg_wind_speed" u then
          set_units "gust_wind_speed" u
      | None => raise (UnitError (unknown_units_msg Speed speed_u path))
      end
  end.

(** The block of [__init__] that resolves the units of [q]. *)
Definition resolve (q : quantity) : gmap string cfg_value -> string -> M unit :=
  match q with
  | Temperature => resolve_temperature
  | Pressure => resolve_pressure
  | Rain => resolve_rain
  | Speed => resolve_speed
  end.

(** [self.source = cumulus_config_dict['directory']]; a section there
    fails at [self.source + '/?????log.txt']. *)
Definition get_directory (cfg : gmap string cfg_value) (path : string)
    : res string :=
  match cfg !! "directory" with
  | None =>
      Raise (ViolatedPrecondition
               ("Cumulus monthly logs directory not specified in '"
                  +:+ path +:+ "'."))
  | Some (Scalar s) => Ok s
  | Some (Sect _) => Raise TypeError
  end.

(** [CumulusSource.__init__], from the attributes it saves to the check
    of the catalogue.  The parent's [__init__] and the report to the log
    that ends the method use the parent's attributes only. *)
Definition __init__ (fs : gmap string fs_node) (cfg : gmap string cfg_value)
    (path : string) : M Instance :=
  let decimal := default (Scalar ".") (cfg !! "decimal") in
  let delimiter := default (Scalar ",") (cfg !! "delimiter") in
  exec resolve_temperature cfg path then
  exec resolve_pressure cfg path then
  exec resolve_rain cfg path then
  exec resolve_speed cfg path then
  let* source := lift (get_directory cfg path) in
  let month_log_list := glob fs source in
  let* _temp := lift (temp_list month_log_list) in
  let log_list := (fun a => a.1.1) <$> py_sorted entry_key _temp in
  if (length log_list =? 0)%nat
  then raise (WeeImportIOError
                ("No Cumulus monthly logs found in directory '"
                   +:+ source +:+ "'."))
  else ret (mkInstance path cfg [0; 360]%nat decimal delimiter
              "%d/%m/%y %H:%M" "cumulative" None source log_list None None).

(** The clean-up loop of [getRawData].  [str.replace] raises
    [TypeError] when the separator it is given is not a string. *)
Fixpoint clean_data (decimal delimiter : cfg_value) (_raw_data : list string)
    : res (list string) :=
  match _raw_data with
  | [] => Ok []
  | _row :: rest =>
      match decimal with
      | Sect _ => Raise TypeError
      | Scalar dec =>
          let _line := PyStr.replace dec "." None _row in
          if String.eqb _line nl then clean_data decimal delimiter rest
          else
            match delimiter with
            | Sect _ => Raise TypeError
            | Scalar del =>
                let _datetime_line := PyStr.replace del " " (Some 1) _line in
                match clean_data decimal delimiter rest with
                | Ok _clean_data => Ok (_datetime_line :: _clean_data)
                | Raise e => Raise e
                end
            end
      end
  end.

(** [csv.DictReader(lines, fieldnames=..., delimiter=...)]: the
    delimiter must be a string of one character. *)
Definition DictReader (lines fieldnames : list string) (delimiter : cfg_value)
    : res Reader :=
  match delimiter with
  | Scalar (String c EmptyString) => Ok (mkReader lines fieldnames c)
  | _ => Raise TypeError
  end.

Definition set_map (self : Instance) (m : FieldMap) : Instance :=
  mkInstance (import_config_path self) (cumulus_config_dict self)
    (wind_dir self) (decimal self) (delimiter self)
    (raw_datetime_format self) (rain self) (Some m) (source self)
    (log_list self) (first_period self) (last_period self).

Definition getRawData (fs : gmap string fs_node) (self : Instance)
    (period : string) : M (Instance * Reader) :=
  if isfile fs period then
    exec log_open period then
    let _raw_data := readlines fs period in
    let* _clean_data := lift (clean_data (decimal self) (delimiter self) _raw_data) in
    let* _reader := lift (DictReader _clean_data _field_list (delimiter self)) in
    exec log_build _reader then
    fun w =>
      (Ok (set_map self
             (parseMap (header_map w) self "Cumulus" _reader
                (cumulus_config_dict self)),
           _reader), w)
  else raise (WeeImportIOError
                ("Cumulus monthly log file '" +:+ period
                   +:+ "' could not be found.")).

(** The two assignments [period_generator] makes before it yields
    [month]. *)
Definition set_flags (self : Instance) (month : string) : Instance :=
  mkInstance (import_config_path self) (cumulus_config_dict self)
    (wind_dir self) (decimal self) (delimiter self)
    (raw_datetime_format self) (rain self) (map self) (source self)
    (log_list self)
    (Some (bool_decide (Some month = head (log_list self))))
    (Some (bool_decide (Some month = last (log_list self)))).

(** [period_generator] run to exhaustion: each yielded file name, with
    [self] as it is at that yield. *)
Definition period_generator (self : Instance) : list (string * Instance) :=
  (fun month => (month, set_flags self month)) <$> log_list self.

(** The loop the generator controls, as far as this class is concerned:
    each period the generator yields is handed to [getRawData]. *)
Fixpoint process_periods (fs : gmap string fs_node) (self : Instance)
    (months : list string) : M (Instance * list Reader) :=
  match months with
  | [] => ret (self, [])
  | month :: rest =>
      let* r := getRawData fs (set_flags self month) month in
      let* rs := process_periods fs r.1 rest in
      ret (rs.1, r.2 :: rs.2)
  end.

Definition run (fs : gmap string fs_node) (self : Instance)
    : M (Instance * list Reader) :=
  process_periods fs self (log_list self).

End CumulusSource.

Arguments import_config_path {FieldMap} _.
Arguments cumulus_config_dict {FieldMap} _.
Arguments decimal {FieldMap} _.
Arguments delimiter {FieldMap} _.
Arguments map {FieldMap} _.
Arguments source {FieldMap} _.
Arguments log_list {FieldMap} _.
Arguments first_period {FieldMap} _.
Arguments last_period {FieldMap} _.
Arguments set_map {FieldMap} _ _.
Arguments set_flags {FieldMap} _ _.
Arguments period_generator {FieldMap} _.
Arguments getRawData {FieldMap} _ _ _ _ _.
Arguments process_periods {FieldMap} _ _ _ _ _.
Arguments run {FieldMap} _ _ _ _.

(** ** The vocabulary of the properties *)

(** A one-character separator [d] replaced by a dot: character by
    character. *)
Fixpoint map_char (d : ascii) (s : string) : string :=
  match s with
  | EmptyString => EmptyString
  | String a r =>
      String (if Ascii.eqb a d then "."%char else a) (map_char d r)
  end.

(** The line after the decimal separator is replaced, and after the first
    delimiter is replaced as well. *)
Definition normalised (dec row : string) : string :=
  PyStr.replace dec "." None row.

Definition cleaned (dec del row : string) : string :=
  PyStr.replace del " " (Some 1) (normalised dec row).

(** The lines of [rows] that are not blank once normalised, cleaned. *)
Definition kept_lines (dec del : string) (rows : list string) : list string :=
  cleaned dec del <$> filter (fun row => normalised dec row <> nl) rows.

(** The reader [getRawData] creates for a period. *)
Definition reader_of (fs : gmap string fs_node) (dec : string) (c : ascii)
    (period : string) : Reader :=
  mkReader (kept_lines dec (String c EmptyString) (readlines fs period))
    _field_list c.

(** The header map after [self._header_map[f]['units'] = u] when [f] is a
    key of it. *)
Definition put_units (f u : string) (hm : gmap string FieldSpec)
    : gmap string FieldSpec :=
  match hm !! f with
  | Some spec => <[f := mkFieldSpec (Some u) (map_to spec)]> hm
  | None => hm
  end.

(** [hm[f]['units']], when both keys are there. *)
Definition unit_of (hm : gmap string FieldSpec) (f : string) : option string :=
  hm !! f ≫= units.

Definition with_header (w : World) (hm : gmap string FieldSpec) : World :=
  mkWorld hm (opened w) (map_builds w).

(** A header map that has every key the class body gives it. *)
Definition keys_ok (hm : gmap string FieldSpec) : Prop :=
  forall f, is_Some (_header_map !! f) -> is_Some (hm !! f).

(** The assignments the block of a quantity makes for the unit [u], in
    order: the field and the unit it is given. *)
Definition targets (q : quantity) (u : string) : list (string * string) :=
  match q with
  | Temperature =>
      [("cur_out_temp", u); ("curr_in_temp", u); ("cur_dewpoint", u);
       ("cur_heatindex", u); ("cur_windchill", u); ("cur_app_temp", u)]
  | Pressure => [("cur_slp", u)]
  | Rain =>
      ("midnight_rain", u) ::
      match rain_units_dict !! u with
      | Some rate => [("cur_rain_rate", rate)]
      | None => []
      end
  | Speed => [("avg_wind_speed", u); ("gust_wind_speed", u)]
  end.

Definition write_units (q : quantity) (u : string)
    (hm : gmap string FieldSpec) : gmap string FieldSpec :=
  foldl (fun hm fu => put_units fu.1 fu.2 hm) hm (targets q u).

(** The fields that carry the declared unit of a quantity itself. *)
Definition unit_fields (q : quantity) : list string :=
  match q with
  | Temperature =>
      ["cur_out_temp"; "curr_in_temp"; "cur_dewpoint";
       "cur_heatindex"; "cur_windchill"; "cur_app_temp"]
  | Pressure => ["cur_slp"]
  | Rain => ["midnight_rain"]
  | Speed => ["avg_wind_speed"; "gust_wind_speed"]
  end.

(** The unit a ['Units'] section declares for [q] passes the check of
    [q]'s block. *)
Definition unit_ok (default_unit_format_dict : gmap string string)
    (d : gmap string string) (q : quantity) : bool :=
  match checked (d !! qkey q) (allowed default_unit_format_dict q) with
  | Some _ => true
  | None => false
  end.

Definition declared (d : gmap string string) (q : quantity) : string :=
  default EmptyString (d !! qkey q).

(** The quantities resolved before [q]. *)
Definition before (q : quantity) : list quantity :=
  match q with
  | Temperature => []
  | Pressure => [Temperature]
  | Rain => [Temperature; Pressure]
  | Speed => [Temperature; Pressure; Rain]
  end.

(** The first quantity, in the order of the blocks, whose declared unit
    does not pass its check. *)
Definition first_bad (default_unit_format_dict : gmap string string)
    (d : gmap string string) : option quantity :=
  List.find (fun q => negb (unit_ok default_unit_format_dict d q)) quantities.

(** The header map after the blocks of [qs] have made their
    assignments. *)
Definition write_all (d : gmap string string) (qs : list quantity)
    (hm : gmap string FieldSpec) : gmap string FieldSpec :=
  foldl (fun hm q => write_units q (declared d q) hm) hm qs.

(** [__init__] from the source directory on. *)
Definition init_catalogue (FieldMap : Type) (fs : gmap string fs_node)
    (cfg : gmap string cfg_value) (path : string) : M (Instance FieldMap) :=
  let decimal := default (Scalar ".") (cfg !! "decimal") in
  let delimiter := default (Scalar ",") (cfg !! "delimiter") in
  let* source := lift (get_directory cfg path) in
  let month_log_list := glob fs source in
  let* _temp := lift (temp_list month_log_list) in
  let log_list := (fun a => a.1.1) <$> py_sorted entry_key _temp in
  if (length log_list =? 0)%nat
  then raise (WeeImportIOError
                ("No Cumulus monthly logs found in directory '"
                   +:+ source +:+ "'."))
  else ret (mkInstance FieldMap path cfg [0; 360]%nat decimal delimiter
              "%d/%m/%y %H:%M" "cumulative" None source log_list None None).

(** The order [sorted] puts the elements in. *)
Definition by_key {A : Type} (key : A -> string * nat) (x y : A) : Prop :=
  key_le (key x) (key y) = true.

(** The sort key of a log file, read off its name. *)
Definition file_key (fn : string) : string * nat :=
  (PyStr.slice_from_end 9 7 fn,
   default 0 (strptime_b (PyStr.slice_from_end 12 9 fn))).

(** The three letters at the month's place are a month abbreviation. *)
Definition month_ok (fn : string) : Prop :=
  is_Some (strptime_b (PyStr.slice_from_end 12 9 fn)).

Definition entry_of (fn : string) : string * string * nat :=
  (fn, (file_key fn).1, (file_key fn).2).

(** What an effect keeps of the world. *)
Definition keeps {A} (f : World -> list string) (m : M A) : Prop :=
  forall w, f (m w).2 = f w.

(** [self._header_map] as an instance sees it: no method assigns an
    attribute of that name on [self], so the lookup falls through to the
    class attribute, the one dictionary every instance shares. *)
Definition self_header_map {FieldMap : Type} (w : World)
    (self : Instance FieldMap) : gmap string FieldSpec :=
  header_map w.

(** The fields whose units the blocks of [__init__] assign. *)
Definition written_fields : list string :=
  ["cur_out_temp"; "curr_in_temp"; "cur_dewpoint"; "cur_heatindex";
   "cur_windchill"; "cur_app_temp"; "cur_slp"; "midnight_rain";
   "cur_rain_rate"; "avg_wind_speed"; "gust_wind_speed"].

(** A header map [hm'] that differs from [hm] at most in the units of
    those fields. *)
Definition header_frame (hm hm' : gmap string FieldSpec) : Prop :=
  forall f,
    map_to <$> hm' !! f = map_to <$> hm !! f /\
    (f ∉ written_fields -> hm' !! f = hm !! f).

(** An effect that changes nothing but the units of those fields. *)
Definition quiet {A} (m : M A) : Prop :=
  forall w,
    header_frame (header_map w) (header_map (m w).2) /\
    opened (m w).2 = opened w /\
    map_builds (m w).2 = map_builds w.

(** The yields of the generator at which a flag is set. *)
Definition first_yields {FieldMap : Type} (self : Instance FieldMap)
    : list (string * Instance FieldMap) :=
  filter (fun y => first_period y.2 = Some true) (period_generator self).

Definition last_yields {FieldMap : Type} (self : Instance FieldMap)
    : list (string * Instance FieldMap) :=
  filter (fun y => last_period y.2 = Some true) (period_generator self).

(** ** A sample installation *)

(** Some entries of [weewx.units.default_unit_format_dict], enough for the
    examples. *)
Definition units_sample : gmap string string :=
  list_to_map
    [("degree_C", "%.1f"); ("degree_F", "%.1f"); ("hPa", "%.1f");
     ("inHg", "%.3f"); ("mbar", "%.1f"); ("mm", "%.1f"); ("inch", "%.2f");
     ("km_per_hour", "%.0f"); ("mile_per_hour", "%.0f");
     ("meter_per_second", "%.1f"); ("knot", "%.0f")].

Definition units_metric : gmap string string :=
  list_to_map
    [("temperature", "degree_C"); ("pressure", "hPa"); ("rain", "mm");
     ("speed", "km_per_hour")].

Definition units_us : gmap string string :=
  list_to_map
    [("temperature", "degree_F"); ("pressure", "inHg"); ("rain", "inch");
     ("speed", "mile_per_hour")].

Definition cfg_metric : gmap string cfg_value :=
  list_to_map [("Units", Sect units_metric); ("directory", Scalar "/logs")].

Definition cfg_us : gmap string cfg_value :=
  list_to_map [("Units", Sect units_us); ("directory", Scalar "/logs")].

Definition conf_path : string := "/etc/weewx/import.conf".

(** A directory of three monthly logs, listed out of order, next to a file
    that is none. *)
Definition fs_sample : gmap string fs_node :=
  list_to_map
    [("/logs", Dir ["Feb16log.txt"; "readme.txt"; "Dec15log.txt"; "Jan16log.txt"]);
     ("/logs/Dec15log.txt",
      File ["31/12/15,23:50,4.8,82,2.0" +:+ nl]);
     ("/logs/Jan16log.txt",
      File ["01/01/16,00:00,5.2,80,2.1" +:+ nl; nl;
            "01/01/16,00:10,5.3,81,2.2" +:+ nl]);
     ("/logs/Feb16log.txt",
      File ["01/02/16,00:00,7.0,75,1.4" +:+ nl])].

(** The same directory with a file that matches the pattern and is no
    monthly log. *)
Definition fs_stray : gmap string fs_node :=
  list_to_map
    [("/logs", Dir ["Jan16log.txt"; "errorlog.txt"]);
     ("/logs/Jan16log.txt", File ["01/01/16,00:00,5.2,80,2.1" +:+ nl]);
     ("/logs/errorlog.txt", File ["disk full" +:+ nl])].

Definition fs_empty : gmap string fs_node :=
  list_to_map [("/logs", Dir ["readme.txt"; "dayfile.txt"])].

Definition FieldMap_model : Type := list (string * (string * option string)).

(** Modelled from the spec: [weeimport.Source.parseMap], a method of the
    parent class, which is not part of this module.  The map binds each
    field name of the reader that has an entry in the header map to the
    destination field and the unit of that entry. *)
Definition parseMap_model (hm : gmap string FieldSpec)
    (self : Instance (list (string * (string * option string))))
    (source_type : string) (rd : Reader) (cfg : gmap string cfg_value)
    : list (string * (string * option string)) :=
  omap (fun f => (fun spec => (map_to spec, (f, units spec))) <$> hm !! f)
    (rd_fieldnames rd).

(** The instance and the world the sample construction gives. *)
Definition self_sample : Instance FieldMap_model :=
  mkInstance FieldMap_model conf_path cfg_metric [0; 360]%nat
    (Scalar ".") (Scalar ",") "%d/%m/%y %H:%M" "cumulative" None "/logs"
    ["/logs/Dec15log.txt"; "/logs/Jan16log.txt"; "/logs/Feb16log.txt"]
    None None.

Definition w_metric : World :=
  with_header world0 (write_all units_metric quantities _header_map).

Definition self_us : Instance FieldMap_model :=
  mkInstance FieldMap_model conf_path cfg_us [0; 360]%nat
    (Scalar ".") (Scalar ",") "%d/%m/%y %H:%M" "cumulative" None "/logs"
    ["/logs/Dec15log.txt"; "/logs/Jan16log.txt"; "/logs/Feb16log.txt"]
    None None.

Definition w_us : World :=
  with_header w_metric (write_all units_us quantities (header_map w_metric)).

(** A directory whose logs span the turn of a century. *)
Definition fs_century : gmap string fs_node :=
  list_to_map
    [("/logs", Dir ["Dec99log.txt"; "Jan00log.txt"; "Nov99log.txt"]);
     ("/logs/Nov99log.txt", File ["30/11/99,23:50,6.1,90,0.0" +:+ nl]);
     ("/logs/Dec99log.txt", File ["31/12/99,23:50,4.8,82,2.0" +:+ nl]);
     ("/logs/Jan00log.txt", File ["01/01/00,00:00,5.2,80,2.1" +:+ nl])].

(** A directory with a log that holds blank lines only, and two logs of
    one month whose names differ in case. *)
Definition fs_odd : gmap string fs_node :=
  list_to_map
    [("/logs", Dir ["JAN16log.txt"; "Dec15log.txt"; "Jan16log.txt"]);
     ("/logs/Dec15log.txt", File [nl; nl]);
     ("/logs/Jan16log.txt", File ["01/01/16,00:00,5.2,80,2.1" +:+ nl]);
     ("/logs/JAN16log.txt", File ["01/01/16,00:10,5;3,81,2;2" +:+ nl])].

(** The sample instance with other separators. *)
Definition self_with (dec del : string) : Instance FieldMap_model :=
  mkInstance FieldMap_model conf_path cfg_metric [0; 360]%nat
    (Scalar dec) (Scalar del) "%d/%m/%y %H:%M" "cumulative" None "/logs"
    ["/logs/Dec15log.txt"; "/logs/Jan16log.txt"; "/logs/Feb16log.txt"]
    None None.

(** The instances constructions over those directories give. *)
Definition self_century : Instance FieldMap_model :=
  mkInstance FieldMap_model conf_path cfg_metric [0; 360]%nat
    (Scalar ".") (Scalar ",") "%d/%m/%y %H:%M" "cumulative" None "/logs"
    ["/logs/Jan00log.txt"; "/logs/Nov99log.txt"; "/logs/Dec99log.txt"]
    None None.

Definition self_odd : Instance FieldMap_model :=
  mkInstance FieldMap_model conf_path cfg_metric [0; 360]%nat
    (Scalar ".") (Scalar ",") "%d/%m/%y %H:%M" "cumulative" None "/logs"
    ["/logs/Dec15log.txt"; "/logs/JAN16log.txt"; "/logs/Jan16log.txt"]
    None None.

(** A configuration whose speed unit is not allowed, and one without the
    source directory. *)
Definition cfg_bad_speed : gmap string cfg_value :=
  <["Units" := Sect (<["speed" := "warp"]> units_metric)]> cfg_metric.

Definition cfg_no_directory : gmap string cfg_value :=
  delete "directory" cfg_metric.

(** ** The helpers evaluated *)

Example replace_all_ex : PyStr.replace "," "." None "1,5;2,25" = "1.5;2.25".
Proof. reflexivity. Qed.
Example replace_first_ex :
  PyStr.replace "," " " (Some 1) "01/01/16,00:00,5.2" = "01/01/16 00:00,5.2".
Proof. reflexivity. Qed.
Example replace_empty_ex : PyStr.replace "" "." None "ab" = ".a.b.".
Proof. reflexivity. Qed.
Example replace_long_ex : PyStr.replace "aa" "b" None "aaaxaa" = "baxb".
Proof. reflexivity. Qed.
Example split_ex : PyStr.split "," "a,,b," = Some ["a"; ""; "b"; ""].
Proof. reflexivity. Qed.
Example slice_ex : PyStr.slice_from_end 12 9 "/logs/Jan16log.txt" = "Jan"
                   /\ PyStr.slice_from_end 9 7 "/logs/Jan16log.txt" = "16".
Proof. split; reflexivity. Qed.

Example strptime_ex :
  strptime_b "Jan" = Some 1 /\ strptime_b "DEC" = Some 12
  /\ strptime_b "abc" = None /\ strptime_b "ja" = None.
Proof. repeat split; reflexivity. Qed.

(** ** Facts about the string operations *)

Section StringFacts.

Lemma prefix_char (c a : ascii) (r : string) :
  String.prefix (String c EmptyString) (String a r) = Ascii.eqb a c.
Proof.
  simpl. destruct (ascii_dec c a) as [->|Hne].
  - rewrite Ascii.eqb_refl. by destruct r.
  - symmetry. apply Ascii.eqb_neq. congruence.
Qed.

Lemma app_cons_str (a : ascii) (s t : string) :
  String a s +:+ t = String a (s +:+ t).
Proof. reflexivity. Qed.

Lemma app_nil_r_str (s : string) : s +:+ EmptyString = s.
Proof.
  induction s as [|a s IH]; [done|]. by rewrite app_cons_str, IH.
Qed.

Lemma app_assoc_str (s1 s2 s3 : string) :
  (s1 +:+ s2) +:+ s3 = s1 +:+ s2 +:+ s3.
Proof.
  induction s1 as [|a s1 IH]; [done|]. by rewrite !app_cons_str, IH.
Qed.

(** Once the count is used up, the scan copies the rest. *)
Lemma replace_go_spent (old new s : string) :
  PyStr.replace_go old new 0 (Some 0) s = s.
Proof. induction s as [|a s IH]; simpl; [done|by rewrite IH]. Qed.

Lemma split_go_nonempty (sep : string) (k : nat) (s : string) :
  PyStr.split_go sep k s <> [].
Proof.
  revert k; induction s as [|a s IH]; intros k; [done|].
  cbn [PyStr.split_go].
  destruct k as [|k]; [|apply IH].
  destruct (String.prefix sep (String a s)); [done|].
  specialize (IH 0).
  destruct (PyStr.split_go sep 0 s); [congruence|discriminate].
Qed.

(** A string without the separator is one field. *)
Lemma split_go_no_char (c : ascii) (s : string) :
  PyStr.has_char c s = false ->
  PyStr.split_go (String c EmptyString) 0 s = [s].
Proof.
  induction s as [|a s IH]; simpl; [done|].
  intros [Ha Hs]%orb_false_elim.
  rewrite IH by done.
  destruct (ascii_dec c a) as [->|Hne].
  - by rewrite Ascii.eqb_refl in Ha.
  - done.
Qed.

Lemma replace_go_no_char (c : ascii) (new : string) (count : option nat)
    (s : string) :
  PyStr.has_char c s = false ->
  PyStr.replace_go (String c EmptyString) new 0 count s = s.
Proof.
  induction s as [|a s IH]; [done|].
  intros H. pose proof H as [Ha Hs]%orb_false_elim.
  cbn [PyStr.replace_go]. rewrite prefix_char, Ha, andb_false_r.
  by rewrite IH.
Qed.

(** Replacing the first separator by a space merges the first two
    fields and leaves the others as they are. *)
Lemma split_replace_first (c : ascii) (s : string) :
  c <> " "%char ->
  PyStr.has_char c s = true ->
  exists f0 f1 rest,
    PyStr.split_go (String c EmptyString) 0 s = f0 :: f1 :: rest /\
    PyStr.split_go (String c EmptyString) 0
      (PyStr.replace_go (String c EmptyString) " " 0 (Some 1) s)
    = (f0 +:+ " " +:+ f1) :: rest.
Proof.
  intros Hsp. induction s as [|a s IH]; [done|].
  intros H. cbn [PyStr.replace_go PyStr.split_go].
  rewrite prefix_char. destruct (Ascii.eqb a c) eqn:Hac.
  - apply Ascii.eqb_eq in Hac as ->. simpl andb. cbv iota.
    cbn [String.length Nat.sub PyStr.used Nat.pred].
    rewrite replace_go_spent.
    destruct (PyStr.split_go (String c EmptyString) 0 s) as [|f1 rest] eqn:Hs;
      [by apply split_go_nonempty in Hs|].
    exists EmptyString, f1, rest. split; [done|].
    change (" " +:+ s) with (String " " s).
    cbn [PyStr.split_go]. rewrite prefix_char.
    assert (Ascii.eqb " " c = false) as ->
      by (apply Ascii.eqb_neq; congruence).
    by rewrite Hs.
  - rewrite andb_false_r. cbn [PyStr.has_char] in H. rewrite Hac in H.
    destruct (IH H) as (f0 & f1 & rest & Hs & Hr).
    exists (String a f0), f1, rest.
    cbn [PyStr.split_go]. rewrite prefix_char, Hac, Hs, Hr. done.
Qed.

(** A one-character pattern replaced by itself changes nothing. *)
Lemma replace_char_same (d : ascii) (s : string) :
  PyStr.replace (String d EmptyString) (String d EmptyString) None s = s.
Proof.
  unfold PyStr.replace.
  induction s as [|a s IH]; [done|].
  cbn [PyStr.replace_go]. rewrite prefix_char.
  destruct (Ascii.eqb a d) eqn:Had; simpl andb; cbv iota.
  - apply Ascii.eqb_eq in Had as ->. simpl. by rewrite IH.
  - by rewrite IH.
Qed.

Lemma replace_char_dot (d : ascii) (s : string) :
  PyStr.replace (String d EmptyString) "." None s = map_char d s.
Proof.
  unfold PyStr.replace.
  induction s as [|a s IH]; [done|].
  cbn [PyStr.replace_go map_char]. rewrite prefix_char.
  destruct (Ascii.eqb a d); simpl andb; cbv iota; simpl; by rewrite IH.
Qed.

(** When the decimal separator is neither the delimiter nor does the dot
    coincide with the delimiter, normalising the decimals leaves the
    fields where they are. *)
Lemma split_map_char (c d : ascii) (s : string) :
  d <> c -> c <> "."%char ->
  PyStr.split_go (String c EmptyString) 0 (map_char d s)
  = map_char d <$> PyStr.split_go (String c EmptyString) 0 s.
Proof.
  intros Hdc Hc. induction s as [|a s IH]; [done|].
  cbn [map_char PyStr.split_go]. rewrite !prefix_char.
  destruct (Ascii.eqb a d) eqn:Had.
  - apply Ascii.eqb_eq in Had as ->.
    assert (Ascii.eqb "." c = false) as ->
      by (apply Ascii.eqb_neq; congruence).
    assert (Ascii.eqb d c = false) as -> by by apply Ascii.eqb_neq.
    rewrite IH.
    pose proof (split_go_nonempty (String c EmptyString) 0 s) as Hne.
    destruct (PyStr.split_go (String c EmptyString) 0 s); [done|].
    simpl. by rewrite Ascii.eqb_refl.
  - destruct (Ascii.eqb a c) eqn:Hac.
    + simpl. by rewrite IH.
    + rewrite IH.
      pose proof (split_go_nonempty (String c EmptyString) 0 s) as Hne.
      destruct (PyStr.split_go (String c EmptyString) 0 s); [done|].
      simpl. by rewrite Had.
Qed.

End StringFacts.

(** ** The clean-up of a period's lines *)

Lemma clean_data_scalar (dec del : string) (rows : list string) :
  clean_data (Scalar dec) (Scalar del) rows
  = Ok (cleaned dec del <$> filter (fun row => normalised dec row <> nl) rows).
Proof.
  induction rows as [|row rows IH]; [done|].
  cbn [clean_data]. rewrite IH. fold (normalised dec row).
  rewrite filter_cons. destruct (String.eqb (normalised dec row) nl) eqn:E.
  - apply String.eqb_eq in E. by rewrite decide_False by (intros ?; done).
  - apply String.eqb_neq in E. by rewrite decide_True by done.
Qed.

Lemma clean_data_app (decimal delimiter : cfg_value) (l1 l2 c1 c2 : list string) :
  clean_data decimal delimiter l1 = Ok c1 ->
  clean_data decimal delimiter l2 = Ok c2 ->
  clean_data decimal delimiter (l1 ++ l2) = Ok (c1 ++ c2).
Proof.
  revert c1. induction l1 as [|row l1 IH]; intros c1 H1 H2.
  - by injection H1 as <-.
  - cbn [clean_data app] in *. destruct decimal as [dec|]; [|done].
    destruct (String.eqb (PyStr.replace dec "." None row) nl).
    + by apply IH.
    + destruct delimiter as [del|]; [|done].
      destruct (clean_data (Scalar dec) (Scalar del) l1) as [c1'|] eqn:E1;
        [|done].
      injection H1 as <-. by rewrite (IH c1' eq_refl H2).
Qed.

Lemma kept_lines_app dec del l1 l2 :
  kept_lines dec del (l1 ++ l2) = kept_lines dec del l1 ++ kept_lines dec del l2.
Proof. unfold kept_lines. by rewrite filter_app, fmap_app. Qed.

Lemma kept_lines_blank dec del row rows :
  normalised dec row = nl ->
  kept_lines dec del (row :: rows) = kept_lines dec del rows.
Proof.
  intros H. unfold kept_lines. rewrite filter_cons.
  by rewrite decide_False by (intros ?; done).
Qed.

Lemma kept_lines_line dec del row rows :
  normalised dec row <> nl ->
  kept_lines dec del (row :: rows) = cleaned dec del row :: kept_lines dec del rows.
Proof.
  intros H. unfold kept_lines. rewrite filter_cons.
  by rewrite decide_True by done.
Qed.

Section RawData.

Context {FieldMap : Type}.
Variable parseMap :
  gmap string FieldSpec -> Instance FieldMap -> string -> Reader ->
  gmap string cfg_value -> FieldMap.

(** [getRawData] on a period that is a file, for a source whose decimal
    separator is a string and whose delimiter is one character: the file
    is opened, the reader is created over the cleaned lines, and
    [self.map] is assigned the map built from that reader. *)
Lemma getRawData_ok fs (self : Instance FieldMap) period w dec c :
  decimal self = Scalar dec ->
  delimiter self = Scalar (String c EmptyString) ->
  isfile fs period = true ->
  getRawData parseMap fs self period w
  = (Ok (set_map self
           (parseMap (header_map w) self "Cumulus" (reader_of fs dec c period)
              (cumulus_config_dict self)),
         reader_of fs dec c period),
     mkWorld (header_map w) (opened w ++ [period])
       (map_builds w ++ [reader_of fs dec c period])).
Proof.
  intros Hd Hc Hf. unfold getRawData. rewrite Hf, Hd, Hc.
  unfold bind, lift, log_open, log_build. rewrite clean_data_scalar.
  done.
Qed.


(** C4. A line of the period file that is blank once the decimal
    separator is replaced (it is the bare newline) is dropped: it adds
    nothing to the lines the row parser is created over.  Every other
    line is kept: its cleaned form is passed to the row parser, in its
    place in file order. *)
Theorem blank_lines_dropped fs (self : Instance FieldMap) period w dec c :
  decimal self = Scalar dec ->
  delimiter self = Scalar (String c EmptyString) ->
  isfile fs period = true ->
  exists self' rd w',
    getRawData parseMap fs self period w = (Ok (self', rd), w') /\
    rd_lines rd
    = cleaned dec (String c EmptyString)
        <$> filter (fun row => normalised dec row <> nl) (readlines fs period) /\
    (forall pre row post,
       readlines fs period = pre ++ row :: post ->
       normalised dec row = nl ->
       rd_lines rd = kept_lines dec (String c EmptyString) pre
                     ++ kept_lines dec (String c EmptyString) post) /\
    (forall pre row post,
       readlines fs period = pre ++ row :: post ->
       normalised dec row <> nl ->
       rd_lines rd = kept_lines dec (String c EmptyString) pre
                     ++ cleaned dec (String c EmptyString) row
                     :: kept_lines dec (String c EmptyString) post).
Proof.
  intros Hd Hc Hf. eexists _, _, _. split; [by eapply getRawData_ok|].
  split; [done|]. cbn [rd_lines reader_of]. split.
  - intros pre row post -> Hb.
    by rewrite kept_lines_app, kept_lines_blank.
  - intros pre row post -> Hk.
    by rewrite kept_lines_app, kept_lines_line.
Qed.

Lemma set_flags_fields (self : Instance FieldMap) month :
  decimal (set_flags self month) = decimal self /\
  delimiter (set_flags self month) = delimiter self /\
  cumulus_config_dict (set_flags self month) = cumulus_config_dict self /\
  log_list (set_flags self month) = log_list self /\
  map (set_flags self month) = map self.
Proof. done. Qed.

Lemma set_map_fields (self : Instance FieldMap) m :
  decimal (set_map self m) = decimal self /\
  delimiter (set_map self m) = delimiter self /\
  cumulus_config_dict (set_map self m) = cumulus_config_dict self /\
  log_list (set_map self m) = log_list self /\
  map (set_map self m) = Some m.
Proof. done. Qed.

(** The periods processed one after the other: every call of
    [getRawData] opens its file, creates its reader and builds the map
    anew from it. *)
Lemma process_periods_ok fs months : forall (self : Instance FieldMap) w dec c,
  decimal self = Scalar dec ->
  delimiter self = Scalar (String c EmptyString) ->
  Forall (fun m => isfile fs m = true) months ->
  exists self',
    process_periods parseMap fs self months w
    = (Ok (self', reader_of fs dec c <$> months),
       mkWorld (header_map w) (opened w ++ months)
         (map_builds w ++ (reader_of fs dec c <$> months))) /\
    decimal self' = decimal self /\
    delimiter self' = delimiter self /\
    cumulus_config_dict self' = cumulus_config_dict self /\
    log_list self' = log_list self /\
    (months = [] -> self' = self) /\
    (forall m, last months = Some m ->
       exists self_m,
         log_list self_m = log_list self /\
         map self' = Some (parseMap (header_map w) self_m "Cumulus"
                             (reader_of fs dec c m)
                             (cumulus_config_dict self))).
Proof.
  induction months as [|month rest IH]; intros self w dec c Hd Hc Hall.
  - exists self. cbn [process_periods fmap list_fmap]. unfold ret.
    rewrite !app_nil_r. destruct w. by repeat split.
  - apply Forall_cons in Hall as [Hf Hall].
    cbn [process_periods]. unfold bind at 1.
    rewrite (getRawData_ok fs (set_flags self month) month w dec c) by done.
    set (self1 := set_map (set_flags self month) _).
    set (w1 := mkWorld _ _ _).
    destruct (IH self1 w1 dec c) as (self' & Hrun & Hd' & Hc' & Hcfg & Hll & Hnil & Hlast);
      [done..|].
    exists self'. cbn [fst snd]. unfold bind at 1. rewrite Hrun.
    unfold ret. cbn [fst snd fmap list_fmap]. subst w1. cbn [header_map opened map_builds].
    rewrite <- !(assoc_L (++)). repeat split; try done.
    intros m Hm. destruct rest as [|m' rest'].
    + injection Hm as <-. rewrite (Hnil eq_refl). by exists (set_flags self month).
    + apply Hlast. by rewrite last_cons_cons in Hm.
Qed.

(** C1, as the code has it.  Over a catalogue of [k] periods the field
    map is built [k] times, once by each call of [getRawData] and from
    that period's reader; each call assigns [self.map] anew, so after
    the run it is the map built from the last period.  The class-level
    header map is not written by [getRawData]. *)
Theorem map_rebuilt_each_period fs (self : Instance FieldMap) w dec c :
  decimal self = Scalar dec ->
  delimiter self = Scalar (String c EmptyString) ->
  Forall (fun m => isfile fs m = true) (log_list self) ->
  exists self' w',
    run parseMap fs self w
    = (Ok (self', reader_of fs dec c <$> log_list self), w') /\
    map_builds w' = map_builds w ++ (reader_of fs dec c <$> log_list self) /\
    length (map_builds w') = length (map_builds w) + length (log_list self) /\
    header_map w' = header_map w /\
    (forall m, last (log_list self) = Some m ->
       exists self_m,
         map self' = Some (parseMap (header_map w) self_m "Cumulus"
                             (reader_of fs dec c m)
                             (cumulus_config_dict self))).
Proof.
  intros Hd Hc Hall.
  destruct (process_periods_ok fs (log_list self) self w dec c Hd Hc Hall)
    as (self' & Hrun & _ & _ & _ & _ & _ & Hlast).
  eexists self', _. split; [exact Hrun|]. cbn [map_builds header_map].
  split; [done|]. split; [by rewrite length_app, length_fmap|].
  split; [done|]. intros m Hm. destruct (Hlast m Hm) as (self_m & _ & H).
  by exists self_m.
Qed.

End RawData.

(** C5, as the code has it.  For a line that, once the decimal separator
    is replaced, contains the delimiter (one character other than the
    space): the first delimiter becomes a space and the later ones stay,
    so that splitting the cleaned line by the delimiter gives the fields of
    the normalised line with the first two (date and time) joined by a
    space, one field fewer. *)
Theorem first_delimiter_merges (dec : string) (c : ascii) (row : string) :
  c <> " "%char ->
  normalised dec row <> nl ->
  PyStr.has_char c (normalised dec row) = true ->
  exists f0 f1 rest,
    PyStr.split (String c EmptyString) (normalised dec row)
      = Some (f0 :: f1 :: rest) /\
    clean_data (Scalar dec) (Scalar (String c EmptyString)) [row]
      = Ok [cleaned dec (String c EmptyString) row] /\
    PyStr.split (String c EmptyString) (cleaned dec (String c EmptyString) row)
      = Some ((f0 +:+ " " +:+ f1) :: rest).
Proof.
  intros Hsp Hnl Hc.
  destruct (split_replace_first c _ Hsp Hc) as (f0 & f1 & rest & Hs & Hr).
  exists f0, f1, rest. split; [by cbn [PyStr.split]; rewrite Hs|].
  split.
  - rewrite clean_data_scalar, filter_cons, decide_True by done. done.
  - unfold cleaned. destruct (normalised dec row) as [|a s] eqn:E; [done|].
    cbn [PyStr.split PyStr.replace]. by rewrite Hr.
Qed.

Lemma has_char_map_char (c d : ascii) (s : string) :
  d <> c -> c <> "."%char ->
  PyStr.has_char c (map_char d s) = PyStr.has_char c s.
Proof.
  intros Hdc Hc. induction s as [|a s IH]; [done|].
  cbn [map_char PyStr.has_char]. rewrite IH.
  destruct (Ascii.eqb a d) eqn:Had; [|done].
  apply Ascii.eqb_eq in Had as ->.
  assert (Ascii.eqb "." c = false) as -> by (apply Ascii.eqb_neq; congruence).
  assert (Ascii.eqb d c = false) as -> by by apply Ascii.eqb_neq.
  done.
Qed.

(** The same in terms of the raw line, when the decimal separator is one
    character, is not the delimiter, and the delimiter is not the dot: the
    fields of the cleaned line are those of the raw line, decimals
    normalised, with the first two joined. *)
Lemma merged_fields_raw (d c : ascii) (row : string) :
  c <> " "%char -> d <> c -> c <> "."%char ->
  PyStr.has_char c row = true ->
  exists g0 g1 rest,
    PyStr.split (String c EmptyString) row = Some (g0 :: g1 :: rest) /\
    PyStr.split (String c EmptyString)
      (cleaned (String d EmptyString) (String c EmptyString) row)
    = Some ((map_char d g0 +:+ " " +:+ map_char d g1) :: (map_char d <$> rest)).
Proof.
  intros Hsp Hdc Hc Hrow.
  assert (PyStr.has_char c (normalised (String d EmptyString) row) = true) as Hn.
  { unfold normalised. by rewrite replace_char_dot, has_char_map_char. }
  destruct (split_replace_first c _ Hsp Hn) as (f0 & f1 & rest & Hs & Hr).
  assert (PyStr.split (String c EmptyString)
            (cleaned (String d EmptyString) (String c EmptyString) row)
          = Some ((f0 +:+ " " +:+ f1) :: rest)) as Hc'.
  { unfold cleaned.
    destruct (normalised (String d EmptyString) row) as [|a s] eqn:E; [done|].
    cbn [PyStr.split PyStr.replace]. by rewrite Hr. }
  unfold normalised in Hs. rewrite replace_char_dot in Hs.
  rewrite split_map_char in Hs by done.
  destruct (PyStr.split_go (String c EmptyString) 0 row) as [|g0 [|g1 grest]]
    eqn:Hg; try done.
  cbn [fmap list_fmap] in Hs. injection Hs as <- <- <-.
  exists g0, g1, grest. split; [|done].
  cbn [PyStr.split]. by rewrite Hg.
Qed.

(** ** The class-level header map under the unit assignments *)

Lemma keys_ok_init : keys_ok _header_map.
Proof. by intros f. Qed.

Lemma put_units_is_Some f u hm g :
  is_Some (hm !! g) -> is_Some (put_units f u hm !! g).
Proof.
  intros Hg. unfold put_units. destruct (hm !! f) eqn:E; [|done].
  rewrite lookup_insert_is_Some. destruct (decide (f = g)); auto.
Qed.

Lemma keys_ok_put f u hm : keys_ok hm -> keys_ok (put_units f u hm).
Proof. intros H g Hg. by apply put_units_is_Some, H. Qed.

Lemma unit_of_put_eq f u hm :
  is_Some (hm !! f) -> unit_of (put_units f u hm) f = Some u.
Proof.
  intros [spec E]. unfold unit_of, put_units. rewrite E.
  by rewrite lookup_insert_eq.
Qed.

Lemma unit_of_put_ne f g u hm :
  f <> g -> unit_of (put_units f u hm) g = unit_of hm g.
Proof.
  intros Hne. unfold unit_of, put_units. destruct (hm !! f); [|done].
  by rewrite lookup_insert_ne.
Qed.

Lemma map_to_put f g u hm :
  map_to <$> put_units f u hm !! g = map_to <$> hm !! g.
Proof.
  unfold put_units. destruct (hm !! f) as [spec|] eqn:E; [|done].
  destruct (decide (f = g)) as [<-|Hne].
  - by rewrite lookup_insert_eq, E.
  - by rewrite lookup_insert_ne.
Qed.

Lemma set_units_present f u w :
  is_Some (header_map w !! f) ->
  set_units f u w = (Ok tt, with_header w (put_units f u (header_map w))).
Proof.
  intros [spec E]. unfold set_units, put_units, with_header. by rewrite E.
Qed.

Lemma keys_ok_foldl l hm :
  keys_ok hm ->
  keys_ok (foldl (fun hm (fu : string * string) => put_units fu.1 fu.2 hm) hm l).
Proof.
  revert hm. induction l as [|fu l IH]; intros hm H; [done|].
  cbn [foldl]. by apply IH, keys_ok_put.
Qed.

Lemma keys_ok_write q u hm : keys_ok hm -> keys_ok (write_units q u hm).
Proof. apply keys_ok_foldl. Qed.

Lemma map_to_write q u hm g :
  map_to <$> write_units q u hm !! g = map_to <$> hm !! g.
Proof.
  unfold write_units. revert hm.
  induction (targets q u) as [|fu l IH]; intros hm; [done|].
  cbn [foldl]. by rewrite IH, map_to_put.
Qed.

(** Rewriting a unit lookup through the assignments. *)
Ltac unit_lookup H :=
  repeat first
    [ rewrite unit_of_put_ne by discriminate
    | rewrite unit_of_put_eq
        by (repeat apply put_units_is_Some; apply H; by eexists) ].

(** ** Unit resolution *)

Lemma contains_here (sub rest : string) :
  PyStr.contains sub (sub +:+ rest) = true.
Proof.
  assert (String.prefix sub (sub +:+ rest) = true) as H.
  { induction sub as [|a sub IH]; [by destruct rest|].
    rewrite app_cons_str. cbn [String.prefix].
    by destruct (ascii_dec a a). }
  destruct (sub +:+ rest); cbn [PyStr.contains]; by rewrite H.
Qed.

Lemma contains_later (sub pre s : string) :
  PyStr.contains sub s = true -> PyStr.contains sub (pre +:+ s) = true.
Proof.
  intros H. induction pre as [|a pre IH]; [done|].
  rewrite app_cons_str. cbn [PyStr.contains]. rewrite IH. apply orb_true_r.
Qed.

(** Both messages name the quantity. *)
Lemma unknown_units_msg_names q v path :
  PyStr.contains (qkey q) (unknown_units_msg q v path) = true.
Proof.
  unfold unknown_units_msg. do 3 apply contains_later. apply contains_here.
Qed.


Lemma msgs_differ q path q' v path' :
  no_units_msg q path <> unknown_units_msg q' v path'.
Proof. discriminate. Qed.

Section Units.

Variable default_unit_format_dict : gmap string string.

Notation "'allowed_'" := (allowed default_unit_format_dict).
Notation "'resolve_'" := (resolve default_unit_format_dict).
Notation "'unit_ok_'" := (unit_ok default_unit_format_dict).

Lemma unit_ok_Some d q u :
  d !! qkey q = Some u -> unit_ok_ d q = allowed_ q u.
Proof. intros E. unfold unit_ok, checked. rewrite E. by destruct (allowed_ q u). Qed.

Lemma unit_ok_None d q : d !! qkey q = None -> unit_ok_ d q = false.
Proof. intros E. unfold unit_ok, checked. by rewrite E. Qed.

Lemma unit_ok_true d q :
  unit_ok_ d q = true ->
  exists u, d !! qkey q = Some u /\ allowed_ q u = true /\ declared d q = u.
Proof.
  unfold unit_ok, checked, declared.
  destruct (d !! qkey q) as [u|]; [|done].
  destruct (allowed_ q u) eqn:E; [|done]. by exists u.
Qed.

(** The block of [q] when ['Units'] is a section: the assignments for
    the declared unit when it is allowed, and otherwise the 'Unknown
    units' error with nothing assigned. *)
Lemma resolve_section q cfg d path w :
  cfg !! "Units" = Some (Sect d) ->
  keys_ok (header_map w) ->
  resolve_ q cfg path w
  = if unit_ok_ d q
    then (Ok tt, with_header w (write_units q (declared d q) (header_map w)))
    else (Raise (UnitError (unknown_units_msg q (d !! qkey q) path)), w).
Proof.
  intros HU Hk. unfold unit_ok, declared.
  destruct q; cbn [resolve qkey];
    unfold resolve_temperature, resolve_pressure, resolve_rain, resolve_speed,
      units_get; rewrite HU.
  all: match goal with |- context [checked (?m !! ?k)] =>
         destruct (m !! k) as [u|] end;
    cbn [checked]; [|done].
  all: match goal with |- context [allowed_ ?q ?u] =>
         destruct (allowed_ q u) eqn:Ha end; [|done].
  all: unfold bind, write_units; cbn [targets foldl fst snd default].
  all: try (cbn [allowed] in Ha; unfold has_key in Ha;
            destruct (rain_units_dict !! u) as [rate|] eqn:Hr; [|done];
            cbn [foldl fst snd]).
  all: repeat (rewrite set_units_present
                 by (cbn [header_map with_header];
                     repeat apply put_units_is_Some; apply Hk; by eexists);
               cbn [header_map with_header opened map_builds]).
  all: unfold with_header, id; rewrite ?Hr; done.
Qed.

(** The block of [q] when ['Units'] is not a section. *)
Lemma resolve_no_section q cfg path w :
  (forall d, cfg !! "Units" <> Some (Sect d)) ->
  resolve_ q cfg path w = (Raise (UnitError (no_units_msg q path)), w).
Proof.
  intros HU.
  destruct q; cbn [resolve];
    unfold resolve_temperature, resolve_pressure, resolve_rain, resolve_speed,
      units_get;
    destruct (cfg !! "Units") as [[s|d']|] eqn:E; try done;
    by destruct (HU d').
Qed.

End Units.

(** ** The order of the sort key and the stable sort *)

Lemma ascii_compare_lt_trans (a b c : ascii) :
  Ascii.compare a b = Lt -> Ascii.compare b c = Lt -> Ascii.compare a c = Lt.
Proof.
  unfold Ascii.compare. rewrite !N.compare_lt_iff. lia.
Qed.

Lemma ascii_compare_refl (a : ascii) : Ascii.compare a a = Eq.
Proof. unfold Ascii.compare. apply N.compare_refl. Qed.

Lemma str_compare_refl (s : string) : String.compare s s = Eq.
Proof.
  induction s as [|a s IH]; [done|].
  cbn [String.compare]. by rewrite ascii_compare_refl.
Qed.

Lemma str_compare_lt_trans (s1 : string) : forall s2 s3,
  String.compare s1 s2 = Lt -> String.compare s2 s3 = Lt ->
  String.compare s1 s3 = Lt.
Proof.
  induction s1 as [|a s1 IH]; intros [|b s2] [|c s3]; cbn [String.compare];
    try done.
  destruct (Ascii.compare a b) eqn:Hab; try done;
    destruct (Ascii.compare b c) eqn:Hbc; try done; intros H12 H23.
  - apply Ascii.compare_eq_iff in Hab as ->. rewrite Hbc. eauto.
  - apply Ascii.compare_eq_iff in Hab as ->. by rewrite Hbc.
  - apply Ascii.compare_eq_iff in Hbc as ->. by rewrite Hab.
  - by rewrite (ascii_compare_lt_trans a b c).
Qed.

Lemma key_le_refl (k : string * nat) : key_le k k = true.
Proof.
  unfold key_le. rewrite str_compare_refl. by apply Nat.leb_le.
Qed.

Lemma key_le_total (k1 k2 : string * nat) :
  key_le k1 k2 = false -> key_le k2 k1 = true.
Proof.
  unfold key_le. rewrite (String.compare_antisym k2.1 k1.1).
  destruct (String.compare k1.1 k2.1); cbn [CompOpp]; try done.
  rewrite Nat.leb_gt, Nat.leb_le. lia.
Qed.

Lemma key_le_trans (k1 k2 k3 : string * nat) :
  key_le k1 k2 = true -> key_le k2 k3 = true -> key_le k1 k3 = true.
Proof.
  unfold key_le.
  destruct (String.compare k1.1 k2.1) eqn:H12; try done;
    destruct (String.compare k2.1 k3.1) eqn:H23; try done; intros Ha Hb.
  - apply String.compare_eq_iff in H12. rewrite H12, H23.
    apply Nat.leb_le in Ha, Hb. apply Nat.leb_le. lia.
  - apply String.compare_eq_iff in H12. by rewrite H12, H23.
  - apply String.compare_eq_iff in H23. by rewrite <- H23, H12.
  - by rewrite (str_compare_lt_trans _ _ _ H12 H23).
Qed.

(** Two keys that are each below the other are one key. *)
Lemma key_le_antisym (k1 k2 : string * nat) :
  key_le k1 k2 = true -> key_le k2 k1 = true -> k1 = k2.
Proof.
  unfold key_le. rewrite (String.compare_antisym k2.1 k1.1).
  destruct (String.compare k1.1 k2.1) eqn:H12; cbn [CompOpp]; try done.
  apply String.compare_eq_iff in H12. intros Ha Hb.
  apply Nat.leb_le in Ha, Hb. destruct k1, k2; cbn in *. f_equal; [done|lia].
Qed.

Section SortedFacts.

Context {A : Type} (key : A -> string * nat).

Lemma insert_by_perm x l : insert_by key x l ≡ₚ x :: l.
Proof.
  induction l as [|y l IH]; [done|]. cbn [insert_by].
  destruct (key_le (key x) (key y)); [done|].
  rewrite IH. apply Permutation_swap.
Qed.

Lemma py_sorted_perm l : py_sorted key l ≡ₚ l.
Proof.
  induction l as [|x l IH]; [done|].
  cbn [py_sorted foldr]. rewrite insert_by_perm.
  by apply Permutation_skip.
Qed.

Lemma insert_by_sorted x l :
  StronglySorted (by_key key) l -> StronglySorted (by_key key) (insert_by key x l).
Proof.
  induction 1 as [|y l Hl IH Hy]; cbn [insert_by].
  - repeat constructor.
  - destruct (key_le (key x) (key y)) eqn:E.
    + constructor; [by constructor|]. constructor; [done|].
      eapply Forall_impl; [exact Hy|]. intros z Hz.
      unfold by_key in *. by eapply key_le_trans.
    + constructor; [done|].
      rewrite insert_by_perm. constructor; [|done].
      by apply key_le_total.
Qed.

Lemma py_sorted_sorted l : StronglySorted (by_key key) (py_sorted key l).
Proof.
  induction l as [|x l IH]; [constructor|].
  cbn [py_sorted foldr]. by apply insert_by_sorted.
Qed.

(** The sort is stable: an element goes in front of the sorted elements
    whose key is not below its own, those of equal key included. *)
Lemma insert_by_front x l :
  Forall (by_key key x) l -> insert_by key x l = x :: l.
Proof.
  destruct 1 as [|y l Hy _]; [done|]. cbn [insert_by].
  unfold by_key in Hy. by rewrite Hy.
Qed.

(** With keys that tell the elements apart, the result does not depend
    on the order of the input. *)
Lemma py_sorted_unique l1 l2 :
  (forall x y, x ∈ l1 -> y ∈ l1 -> key x = key y -> x = y) ->
  l1 ≡ₚ l2 -> py_sorted key l1 = py_sorted key l2.
Proof.
  intros Hinj Hp.
  apply (StronglySorted_unique_strong (by_key key)).
  - intros x y Hx Hy Hxy Hyx.
    rewrite py_sorted_perm in Hx, Hy. rewrite <- Hp in Hy.
    apply Hinj; [done..|]. by apply key_le_antisym.
  - apply py_sorted_sorted.
  - apply py_sorted_sorted.
  - by rewrite !py_sorted_perm.
Qed.

End SortedFacts.

(** Sorting commutes with a map that keeps the keys. *)
Lemma insert_by_fmap {A B : Type} (f : A -> B) (kb : B -> string * nat)
    (x : A) (l : list A) :
  insert_by kb (f x) (f <$> l) = f <$> insert_by (fun a => kb (f a)) x l.
Proof.
  induction l as [|y r IH]; [done|].
  cbn [insert_by fmap list_fmap].
  destruct (key_le (kb (f x)) (kb (f y))); [done|].
  cbn [fmap list_fmap] in *. by rewrite IH.
Qed.

Lemma py_sorted_fmap {A B : Type} (f : A -> B) (kb : B -> string * nat)
    (l : list A) :
  py_sorted kb (f <$> l) = f <$> py_sorted (fun a => kb (f a)) l.
Proof.
  induction l as [|x l IH]; [done|].
  cbn [fmap list_fmap py_sorted foldr].
  change (foldr (insert_by kb) [] (f <$> l)) with (py_sorted kb (f <$> l)).
  rewrite IH. apply insert_by_fmap.
Qed.

(** ** Construction *)

Lemma temp_list_ok (fns : list string) :
  Forall month_ok fns -> temp_list fns = Ok (entry_of <$> fns).
Proof.
  induction 1 as [|fn fns [mon Hm] _ IH]; [done|].
  cbn [temp_list fmap list_fmap]. fold (@fmap list _ _ _ entry_of fns).
  rewrite IH.
  unfold temp_entry, entry_of, file_key. by rewrite Hm.
Qed.

Lemma temp_list_bad (fns : list string) :
  ~ Forall month_ok fns -> temp_list fns = Raise ValueError.
Proof.
  induction fns as [|fn fns IH]; intros Hn.
  - by destruct Hn.
  - cbn [temp_list]. unfold temp_entry.
    destruct (strptime_b (PyStr.slice_from_end 12 9 fn)) as [mon|] eqn:Hm;
      [|done].
    rewrite IH; [done|]. intros Hall. apply Hn. constructor; [|done].
    unfold month_ok. by rewrite Hm.
Qed.

Lemma sorted_entries (fns : list string) :
  (fun a : string * string * nat => a.1.1)
    <$> py_sorted entry_key (entry_of <$> fns)
  = py_sorted file_key fns.
Proof.
  rewrite py_sorted_fmap, <- list_fmap_compose.
  change (fun a => entry_key (entry_of a)) with file_key.
  induction (py_sorted file_key fns) as [|x l IH]; [done|].
  cbn [fmap list_fmap] in *. by rewrite IH.
Qed.

Lemma keeps_bind {A B} f (m : M A) (k : A -> M B) :
  keeps f m -> (forall a, keeps f (k a)) -> keeps f (bind m k).
Proof.
  intros Hm Hk w. unfold bind. specialize (Hm w).
  destruct (m w) as [[a|e] w1]; cbn [snd] in *; [|done].
  by rewrite Hk.
Qed.

Lemma keeps_set_units f u : keeps opened (set_units f u).
Proof. intros w. unfold set_units. by destruct (header_map w !! f). Qed.

Section Construction.

Variable default_unit_format_dict : gmap string string.
Variable FieldMap : Type.

Notation "'init_'" := (__init__ default_unit_format_dict FieldMap).
Notation "'resolve_'" := (resolve default_unit_format_dict).
Notation "'unit_ok_'" := (unit_ok default_unit_format_dict).
Notation "'first_bad_'" := (first_bad default_unit_format_dict).

Lemma init_split fs cfg path :
  init_ fs cfg path
  = exec resolve_ Temperature cfg path then
    exec resolve_ Pressure cfg path then
    exec resolve_ Rain cfg path then
    exec resolve_ Speed cfg path then
    init_catalogue FieldMap fs cfg path.
Proof. reflexivity. Qed.

Lemma first_bad_None d :
  first_bad_ d = None <-> forall q, unit_ok_ d q = true.
Proof.
  unfold first_bad. cbn [List.find quantities]. split.
  - intros H q.
    destruct (unit_ok_ d Temperature) eqn:E1; [|done].
    destruct (unit_ok_ d Pressure) eqn:E2; [|done].
    destruct (unit_ok_ d Rain) eqn:E3; [|done].
    destruct (unit_ok_ d Speed) eqn:E4; [|done].
    by destruct q.
  - intros H. by rewrite !H.
Qed.

Lemma first_bad_Some d q :
  first_bad_ d = Some q <->
  unit_ok_ d q = false /\ forall q', q' ∈ before q -> unit_ok_ d q' = true.
Proof.
  unfold first_bad. cbn [List.find quantities]. split.
  - destruct (unit_ok_ d Temperature) eqn:E1; cbn [negb];
      [|intros [= <-]; split; [done|by intros q' ?%elem_of_nil]].
    destruct (unit_ok_ d Pressure) eqn:E2; cbn [negb];
      [|intros [= <-]; split; [done|]; intros q'; cbn [before];
        rewrite list_elem_of_singleton; by intros ->].
    destruct (unit_ok_ d Rain) eqn:E3; cbn [negb];
      [|intros [= <-]; split; [done|]; intros q'; cbn [before];
        rewrite !elem_of_cons, elem_of_nil; by intros [->|[->|[]]]].
    destruct (unit_ok_ d Speed) eqn:E4; cbn [negb]; [done|].
    intros [= <-]; split; [done|]. intros q'; cbn [before].
    rewrite !elem_of_cons, elem_of_nil. by intros [->|[->|[->|[]]]].
  - intros [Hq Hb]. destruct q; cbn [before] in Hb.
    + by rewrite Hq.
    + rewrite (Hb Temperature), Hq by set_solver. done.
    + rewrite (Hb Temperature), (Hb Pressure), Hq by set_solver. done.
    + rewrite (Hb Temperature), (Hb Pressure), (Hb Rain), Hq by set_solver.
      done.
Qed.

(** Construction when ['Units'] is a section: it stops at the first
    quantity whose unit does not pass, with the 'Unknown units' error of
    that quantity, and goes on to the catalogue when all four pass. *)
Lemma init_section fs cfg d path w :
  cfg !! "Units" = Some (Sect d) ->
  keys_ok (header_map w) ->
  init_ fs cfg path w
  = match first_bad_ d with
    | Some q =>
        (Raise (UnitError (unknown_units_msg q (d !! qkey q) path)),
         with_header w (write_all d (before q) (header_map w)))
    | None =>
        init_catalogue FieldMap fs cfg path
          (with_header w (write_all d quantities (header_map w)))
    end.
Proof.
  intros HU Hk. rewrite init_split. unfold first_bad, write_all.
  cbn [List.find quantities foldl before].
  unfold bind at 1. rewrite (resolve_section _ Temperature cfg d) by done.
  destruct (unit_ok_ d Temperature); cbn [negb]; [|by destruct w].
  unfold bind at 1. rewrite (resolve_section _ Pressure cfg d)
    by (try done; by apply keys_ok_write).
  destruct (unit_ok_ d Pressure); cbn [negb]; [|done].
  unfold bind at 1. rewrite (resolve_section _ Rain cfg d)
    by (try done; by do 2 apply keys_ok_write).
  destruct (unit_ok_ d Rain); cbn [negb]; [|done].
  unfold bind at 1. rewrite (resolve_section _ Speed cfg d)
    by (try done; by do 3 apply keys_ok_write).
  destruct (unit_ok_ d Speed); cbn [negb]; done.
Qed.

(** Construction when ['Units'] is not a section. *)
Lemma init_no_section fs cfg path w :
  (forall d, cfg !! "Units" <> Some (Sect d)) ->
  init_ fs cfg path w
  = (Raise (UnitError (no_units_msg Temperature path)), w).
Proof.
  intros HU. rewrite init_split. unfold bind at 1.
  by rewrite resolve_no_section.
Qed.

End Construction.


Section Catalogue.

Variable default_unit_format_dict : gmap string string.
Variable FieldMap : Type.

Notation "'init_'" := (__init__ default_unit_format_dict FieldMap).
Notation "'unit_ok_'" := (unit_ok default_unit_format_dict).
Notation "'first_bad_'" := (first_bad default_unit_format_dict).

(** The catalogue part writes nothing. *)
Lemma init_catalogue_world fs cfg path w :
  (init_catalogue FieldMap fs cfg path w).2 = w.
Proof.
  unfold init_catalogue, bind, lift, raise, ret.
  destruct (get_directory cfg path) as [src|]; [|done].
  destruct (temp_list (glob fs src)) as [els|]; [|done].
  by destruct (length _ =? 0)%nat.
Qed.

Lemma init_catalogue_ok fs cfg path w src :
  cfg !! "directory" = Some (Scalar src) ->
  glob fs src <> [] ->
  Forall month_ok (glob fs src) ->
  init_catalogue FieldMap fs cfg path w
  = (Ok (mkInstance FieldMap path cfg [0; 360]%nat
           (default (Scalar ".") (cfg !! "decimal"))
           (default (Scalar ",") (cfg !! "delimiter"))
           "%d/%m/%y %H:%M" "cumulative" None src
           (py_sorted file_key (glob fs src)) None None), w).
Proof.
  intros Hdir Hne Hall.
  unfold init_catalogue, bind, lift, get_directory. rewrite Hdir.
  rewrite (temp_list_ok _ Hall), sorted_entries.
  assert (length (py_sorted file_key (glob fs src)) <> 0) as Hlen.
  { rewrite py_sorted_perm. by destruct (glob fs src). }
  apply Nat.eqb_neq in Hlen. by rewrite Hlen.
Qed.

Lemma init_catalogue_empty fs cfg path w src :
  cfg !! "directory" = Some (Scalar src) ->
  glob fs src = [] ->
  init_catalogue FieldMap fs cfg path w
  = (Raise (WeeImportIOError
              ("No Cumulus monthly logs found in directory '"
                 +:+ src +:+ "'.")), w).
Proof.
  intros Hdir Hg.
  unfold init_catalogue, bind, lift, get_directory. by rewrite Hdir, Hg.
Qed.

Lemma init_catalogue_bad_month fs cfg path w src :
  cfg !! "directory" = Some (Scalar src) ->
  ~ Forall month_ok (glob fs src) ->
  init_catalogue FieldMap fs cfg path w = (Raise ValueError, w).
Proof.
  intros Hdir Hbad.
  unfold init_catalogue, bind, lift, get_directory. rewrite Hdir.
  by rewrite temp_list_bad.
Qed.

(** A catalogue that is built is the sorted list of the files matched. *)
Lemma init_catalogue_inv fs cfg path w self w' :
  init_catalogue FieldMap fs cfg path w = (Ok self, w') ->
  exists src,
    cfg !! "directory" = Some (Scalar src) /\
    source self = src /\
    Forall month_ok (glob fs src) /\ glob fs src <> [] /\
    log_list self = py_sorted file_key (glob fs src) /\
    map self = None /\ w' = w.
Proof.
  destruct (cfg !! "directory") as [[src|?]|] eqn:Hdir;
    try (unfold init_catalogue, bind, lift, get_directory; rewrite Hdir;
         discriminate).
  destruct (decide (Forall month_ok (glob fs src))) as [Hall|Hbad].
  - destruct (decide (glob fs src = [])) as [He|Hne].
    + by rewrite (init_catalogue_empty _ _ _ _ src).
    + rewrite (init_catalogue_ok _ _ _ _ src) by done.
      intros [= <- <-]. by exists src.
  - by rewrite (init_catalogue_bad_month _ _ _ _ src).
Qed.

(** A construction that succeeds found a ['Units'] section whose four
    units pass, and left in the class-level header map the assignments
    of the four blocks. *)
Lemma init_success_inv fs cfg path w self w' :
  keys_ok (header_map w) ->
  init_ fs cfg path w = (Ok self, w') ->
  exists d,
    cfg !! "Units" = Some (Sect d) /\
    (forall q, unit_ok_ d q = true) /\
    w' = with_header w (write_all d quantities (header_map w)) /\
    init_catalogue FieldMap fs cfg path w' = (Ok self, w').
Proof.
  intros Hk.
  destruct (cfg !! "Units") as [[s|d]|] eqn:HU.
  1,3: rewrite init_no_section by (intros d; rewrite HU; discriminate);
       discriminate.
  rewrite (init_section _ _ _ _ d) by done.
  destruct (first_bad_ d) as [q|] eqn:Hb; [discriminate|].
  intros H. exists d. split; [done|]. split; [by apply first_bad_None|].
  pose proof (init_catalogue_world fs cfg path
                (with_header w (write_all d quantities (header_map w)))) as Hw.
  rewrite H in Hw. cbn [snd] in Hw. subst w'. by split.
Qed.

Lemma init_keeps_opened fs cfg path : keeps opened (init_ fs cfg path).
Proof.
  intros w. rewrite init_split.
  assert (forall q, keeps opened (resolve default_unit_format_dict q cfg path))
    as Hr.
  { intros q w0.
    destruct q; cbn [resolve];
      unfold resolve_temperature, resolve_pressure, resolve_rain,
        resolve_speed;
      destruct (units_get _ _) as [v|]; try done;
      destruct (checked _ _) as [u|]; try done;
      repeat (apply keeps_bind; [apply keeps_set_units|intros _]);
      try apply keeps_set_units.
    destruct (rain_units_dict !! u); [apply keeps_set_units|done]. }
  repeat (apply keeps_bind; [apply Hr|intros _]).
  intros w0. by rewrite init_catalogue_world.
Qed.

End Catalogue.

(** ** The unit assignments a construction leaves behind *)

Section UnitsWritten.

Variable default_unit_format_dict : gmap string string.

Notation "'unit_ok_'" := (unit_ok default_unit_format_dict).

Lemma unit_of_write q u hm f :
  keys_ok hm -> f ∈ unit_fields q ->
  unit_of (write_units q u hm) f = Some u.
Proof.
  intros Hk Hf. unfold write_units.
  destruct q; cbn [unit_fields targets] in *;
    try destruct (rain_units_dict !! u);
    cbn [foldl fst snd];
    repeat (apply elem_of_cons in Hf as [->|Hf]; [by unit_lookup Hk|]);
    by apply elem_of_nil in Hf.
Qed.

Lemma rain_allowed u :
  has_key rain_units_dict u = true ->
  (u = "inch" /\ rain_units_dict !! u = Some "inch_per_hour") \/
  (u = "mm" /\ rain_units_dict !! u = Some "mm_per_hour").
Proof.
  unfold has_key, rain_units_dict.
  destruct (decide (u = "inch")) as [->|H1]; [by left|].
  destruct (decide (u = "mm")) as [->|H2]; [by right|].
  by rewrite !lookup_insert_ne, lookup_empty by done.
Qed.

(** After the four blocks, each field of a quantity carries the unit
    the section declares for it, and the rain-rate field the unit looked
    up for the rain unit. *)
Lemma unit_of_write_all d hm :
  keys_ok hm -> (forall q, unit_ok_ d q = true) ->
  (forall q f, f ∈ unit_fields q ->
     unit_of (write_all d quantities hm) f = d !! qkey q) /\
  unit_of (write_all d quantities hm) "cur_rain_rate"
  = d !! "rain" ≫= (rain_units_dict !!.).
Proof.
  intros Hk Hok.
  destruct (unit_ok_true _ d Temperature (Hok _)) as (ut & Et & _ & Dt).
  destruct (unit_ok_true _ d Pressure (Hok _)) as (up & Ep & _ & Dp).
  destruct (unit_ok_true _ d Rain (Hok _)) as (ur & Er & Ar & Dr).
  destruct (unit_ok_true _ d Speed (Hok _)) as (us & Es & _ & Ds).
  cbn [allowed] in Ar.
  assert (exists rate, rain_units_dict !! ur = Some rate) as [rate Hrate].
  { destruct (rain_allowed ur Ar) as [[_ H]|[_ H]]; eauto. }
  unfold write_all, write_units. cbn [foldl quantities].
  rewrite Dt, Dp, Dr, Ds. cbn [targets]. rewrite Hrate. cbn [foldl fst snd].
  split.
  - intros q f Hf.
    destruct q; cbn [unit_fields qkey] in *;
      rewrite ?Et, ?Ep, ?Er, ?Es;
      repeat (apply elem_of_cons in Hf as [->|Hf]; [by unit_lookup Hk|]);
      by apply elem_of_nil in Hf.
  - cbn [qkey] in Er. rewrite Er. cbn. rewrite Hrate. by unit_lookup Hk.
Qed.

End UnitsWritten.

(** ** Properties of construction *)

Section Claims.

Variable default_unit_format_dict : gmap string string.
Variable FieldMap : Type.

Notation "'init_'" := (__init__ default_unit_format_dict FieldMap).
Notation "'resolve_'" := (resolve default_unit_format_dict).
Notation "'allowed_'" := (allowed default_unit_format_dict).
Notation "'unit_ok_'" := (unit_ok default_unit_format_dict).
Notation "'first_bad_'" := (first_bad default_unit_format_dict).

(** C2. For each of the four quantities, when the ['Units'] section
    declares the unit [u] for it: if [u] is in the set the quantity is
    checked against, its block succeeds and every field of the quantity
    carries [u], an identifier of that set; if [u] is not in the set,
    the block raises [UnitError] with the 'Unknown units' message, which
    names the quantity, and assigns nothing. *)
Theorem unit_resolution q cfg d u path w :
  cfg !! "Units" = Some (Sect d) ->
  d !! qkey q = Some u ->
  keys_ok (header_map w) ->
  (allowed_ q u = true ->
     exists w',
       resolve_ q cfg path w = (Ok tt, w') /\
       Forall (fun f => unit_of (header_map w') f = Some u) (unit_fields q) /\
       keys_ok (header_map w')) /\
  (allowed_ q u = false ->
     resolve_ q cfg path w
     = (Raise (UnitError (unknown_units_msg q (Some u) path)), w) /\
     PyStr.contains (qkey q) (unknown_units_msg q (Some u) path) = true).
Proof.
  intros HU Hu Hk.
  rewrite (resolve_section _ q cfg d path w HU Hk).
  rewrite (unit_ok_Some _ d q u Hu). unfold declared. rewrite Hu.
  split; intros Ha; rewrite Ha.
  - eexists. split; [done|]. cbn [header_map with_header default].
    split; [|by apply keys_ok_write].
    apply Forall_forall. intros f Hf. by apply unit_of_write.
  - split; [done|]. apply unknown_units_msg_names.
Qed.

(** C6. For a configuration whose four units pass and whose rain unit
    is [rain_u]: the rate unit is the entry of [rain_units_dict] for
    [rain_u] (['inch_per_hour'] for ['inch'], ['mm_per_hour'] for
    ['mm']), and once [__init__] has run the [midnight_rain] entry of
    the header map carries [rain_u] and the [cur_rain_rate] entry that
    rate unit. *)
Theorem rain_rate_unit fs cfg d path w rain_u :
  cfg !! "Units" = Some (Sect d) ->
  (forall q, unit_ok_ d q = true) ->
  keys_ok (header_map w) ->
  d !! "rain" = Some rain_u ->
  exists rate,
    rain_units_dict !! rain_u = Some rate /\
    ((rain_u = "inch" /\ rate = "inch_per_hour") \/
     (rain_u = "mm" /\ rate = "mm_per_hour")) /\
    let w' := (init_ fs cfg path w).2 in
    unit_of (header_map w') "midnight_rain" = Some rain_u /\
    unit_of (header_map w') "cur_rain_rate" = Some rate.
Proof.
  intros HU Hok Hk Hr.
  destruct (unit_ok_true _ d Rain (Hok _)) as (ur & Er & Ar & _).
  cbn [qkey] in Er. rewrite Hr in Er. injection Er as <-.
  cbn [allowed] in Ar.
  assert (exists rate, rain_units_dict !! rain_u = Some rate /\
            ((rain_u = "inch" /\ rate = "inch_per_hour") \/
             (rain_u = "mm" /\ rate = "mm_per_hour"))) as (rate & Hrate & Htab).
  { destruct (rain_allowed rain_u Ar) as [[-> H]|[-> H]].
    - exists "inch_per_hour". split; [done|]. by left.
    - exists "mm_per_hour". split; [done|]. by right. }
  exists rate. split; [done|]. split; [done|].
  rewrite (init_section _ _ fs cfg d path w HU Hk).
  apply first_bad_None in Hok as Hnone. rewrite Hnone.
  rewrite init_catalogue_world. cbn [header_map with_header].
  destruct (unit_of_write_all _ d (header_map w) Hk Hok) as [Hf Hrr].
  split.
  - rewrite (Hf Rain) by (cbn [unit_fields]; constructor). done.
  - rewrite Hrr, Hr. cbn. done.
Qed.

(** C7. When the units resolve and no entry of the configured source
    directory matches the pattern of the monthly logs, construction
    raises [WeeImportIOError] with a message that holds the directory,
    and has opened no file. *)
Theorem no_logs_found fs cfg d path w src :
  cfg !! "Units" = Some (Sect d) ->
  (forall q, unit_ok_ d q = true) ->
  keys_ok (header_map w) ->
  cfg !! "directory" = Some (Scalar src) ->
  glob fs src = [] ->
  exists w',
    init_ fs cfg path w
    = (Raise (WeeImportIOError
                ("No Cumulus monthly logs found in directory '"
                   +:+ src +:+ "'.")), w') /\
    PyStr.contains src
      ("No Cumulus monthly logs found in directory '" +:+ src +:+ "'.")
    = true /\
    opened w' = opened w.
Proof.
  intros HU Hok Hk Hdir Hg.
  rewrite (init_section _ _ fs cfg d path w HU Hk).
  apply first_bad_None in Hok as ->.
  rewrite (init_catalogue_empty _ _ _ _ _ src Hdir Hg).
  eexists. split; [done|]. split; [|done].
  apply contains_later, contains_here.
Qed.

(** C9. Two constructions that succeed, one after the other: the first
    leaves its units in the class-level header map, the one dictionary
    both instances read; the second writes its own units over them, so
    that what the first instance sees are the units of the second
    configuration. *)
Theorem header_map_shared fs1 cfg1 path1 fs2 cfg2 path2 w self1 w1 self2 w2 :
  keys_ok (header_map w) ->
  init_ fs1 cfg1 path1 w = (Ok self1, w1) ->
  init_ fs2 cfg2 path2 w1 = (Ok self2, w2) ->
  exists d1 d2,
    cfg1 !! "Units" = Some (Sect d1) /\
    cfg2 !! "Units" = Some (Sect d2) /\
    (forall q f, f ∈ unit_fields q ->
       unit_of (self_header_map w1 self1) f = d1 !! qkey q) /\
    (forall q f, f ∈ unit_fields q ->
       unit_of (self_header_map w2 self1) f = d2 !! qkey q /\
       unit_of (self_header_map w2 self2) f = d2 !! qkey q) /\
    (forall q f, f ∈ unit_fields q -> d1 !! qkey q <> d2 !! qkey q ->
       unit_of (self_header_map w2 self1) f
       <> unit_of (self_header_map w1 self1) f) /\
    unit_of (self_header_map w1 self1) "cur_rain_rate"
    = d1 !! "rain" ≫= (rain_units_dict !!.) /\
    unit_of (self_header_map w2 self1) "cur_rain_rate"
    = d2 !! "rain" ≫= (rain_units_dict !!.).
Proof.
  intros Hk H1 H2.
  destruct (init_success_inv _ _ _ _ _ _ _ _ Hk H1) as (d1 & HU1 & Hok1 & -> & _).
  assert (keys_ok (header_map
                     (with_header w (write_all d1 quantities (header_map w)))))
    as Hk1.
  { cbn [header_map with_header]. unfold write_all. cbn [foldl quantities].
    by do 4 apply keys_ok_write. }
  destruct (init_success_inv _ _ _ _ _ _ _ _ Hk1 H2) as (d2 & HU2 & Hok2 & -> & _).
  exists d1, d2. unfold self_header_map. cbn [header_map with_header] in *.
  destruct (unit_of_write_all _ d1 (header_map w) Hk Hok1) as [Hf1 Hr1].
  destruct (unit_of_write_all _ d2 _ Hk1 Hok2) as [Hf2 Hr2].
  repeat split; auto.
  intros q f Hf Hne. rewrite (Hf1 q f Hf), (Hf2 q f Hf). congruence.
Qed.

End Claims.

(** ** The catalogue and the period generator *)

Lemma temp_list_raises (fns : list string) (e : exn) :
  temp_list fns = Raise e -> e = ValueError.
Proof.
  induction fns as [|fn fns IH]; [done|]. cbn [temp_list].
  unfold temp_entry. destruct (strptime_b _); [|by intros [= <-]].
  destruct (temp_list fns); [done|]. intros [= <-]. by apply IH.
Qed.

Lemma join_inj (dir : string) : Inj (=) (=) (join dir).
Proof.
  intros n1 n2. unfold join. induction dir as [|a dir IH].
  - change (EmptyString +:+ "/" +:+ n1) with (String "/" n1).
    change (EmptyString +:+ "/" +:+ n2) with (String "/" n2).
    by intros [= ->].
  - rewrite !app_cons_str. intros [= H]. by apply IH.
Qed.

(** The entries [glob] matches in a directory. *)
Lemma glob_dir fs src names :
  fs !! src = Some (Dir names) ->
  glob fs src
  = join src <$> List.filter (fun n => visible n && fnmatch log_pattern n) names.
Proof. intros H. unfold glob. by rewrite H. Qed.

Lemma glob_NoDup fs src names :
  fs !! src = Some (Dir names) -> NoDup names -> NoDup (glob fs src).
Proof.
  intros H Hnd. rewrite (glob_dir _ _ _ H).
  apply (NoDup_fmap_2 _). apply NoDup_ListNoDup, List.NoDup_filter.
  by apply NoDup_ListNoDup.
Qed.

Section CatalogueClaims.

Variable default_unit_format_dict : gmap string string.
Variable FieldMap : Type.

Notation "'init_'" := (__init__ default_unit_format_dict FieldMap).
Notation "'resolve_'" := (resolve default_unit_format_dict).
Notation "'unit_ok_'" := (unit_ok default_unit_format_dict).
Notation "'first_bad_'" := (first_bad default_unit_format_dict).

Lemma init_catalogue_no_UnitError fs cfg path w msg :
  (init_catalogue FieldMap fs cfg path w).1 <> Raise (UnitError msg).
Proof.
  unfold init_catalogue, bind, lift, get_directory.
  destruct (cfg !! "directory") as [[src|?]|]; try done.
  destruct (temp_list (glob fs src)) as [els|e] eqn:E.
  - by destruct (length _ =? 0)%nat.
  - by rewrite (temp_list_raises _ _ E).
Qed.

(** C10, as the code has it.  The 'No units specified' error is raised
    exactly when ['Units'] is not a section of the configuration.  When
    it is a section that lacks the key of a quantity, the lookup gives
    [None] without raising and the block of that quantity raises the
    'Unknown units' error with the unit rendered as ['None'];
    construction fails with the 'Unknown units' error of the first
    quantity, in the order of the blocks, whose unit is absent or not
    allowed, which is the lacking quantity when the units before it
    pass. *)
Theorem missing_unit_key fs cfg path w :
  keys_ok (header_map w) ->
  (forall q, (init_ fs cfg path w).1 = Raise (UnitError (no_units_msg q path)) ->
     forall d, cfg !! "Units" <> Some (Sect d)) /\
  ((forall d, cfg !! "Units" <> Some (Sect d)) ->
     init_ fs cfg path w
     = (Raise (UnitError (no_units_msg Temperature path)), w)) /\
  (forall d q,
     cfg !! "Units" = Some (Sect d) -> d !! qkey q = None ->
     units_get cfg (qkey q) = Ok None /\
     resolve_ q cfg path w
     = (Raise (UnitError (unknown_units_msg q None path)), w) /\
     (exists q0 w',
        first_bad_ d = Some q0 /\ (q0 = q \/ q0 ∈ before q) /\
        init_ fs cfg path w
        = (Raise (UnitError (unknown_units_msg q0 (d !! qkey q0) path)), w')) /\
     ((forall q', q' ∈ before q -> unit_ok_ d q' = true) ->
        exists w',
          init_ fs cfg path w
          = (Raise (UnitError (unknown_units_msg q None path)), w'))).
Proof.
  intros Hk. split; [|split].
  - intros q Hraise d HU.
    rewrite (init_section _ _ fs cfg d path w HU Hk) in Hraise.
    destruct (first_bad_ d) as [q0|].
    + cbn [fst] in Hraise.
      apply (msgs_differ q path q0 (d !! qkey q0) path). congruence.
    + by eapply init_catalogue_no_UnitError.
  - apply init_no_section.
  - intros d q HU Hq.
    pose proof (unit_ok_None default_unit_format_dict d q Hq) as Hbad.
    split; [by unfold units_get; rewrite HU, Hq|].
    split.
    { rewrite (resolve_section _ q cfg d path w HU Hk). by rewrite Hbad, Hq. }
    rewrite (init_section _ _ fs cfg d path w HU Hk).
    split.
    + destruct (first_bad_ d) as [q0|] eqn:Hb.
      * exists q0. eexists. split; [done|]. split; [|done].
        apply first_bad_Some in Hb as [_ Hbefore].
        destruct q, q0; cbn [before]; try (by left); try (right; set_solver);
          exfalso; rewrite Hbefore in Hbad by (cbn [before]; set_solver);
          done.
      * pose proof (proj1 (first_bad_None _ d) Hb) as Hall.
        by rewrite Hall in Hbad.
    + intros Hbefore.
      assert (first_bad_ d = Some q) as -> by by apply first_bad_Some.
      rewrite Hq. by eexists.
Qed.

Lemma init_ok fs cfg d path w src :
  cfg !! "Units" = Some (Sect d) ->
  (forall q, unit_ok_ d q = true) ->
  keys_ok (header_map w) ->
  cfg !! "directory" = Some (Scalar src) ->
  glob fs src <> [] ->
  Forall month_ok (glob fs src) ->
  init_ fs cfg path w
  = (Ok (mkInstance FieldMap path cfg [0; 360]%nat
           (default (Scalar ".") (cfg !! "decimal"))
           (default (Scalar ",") (cfg !! "delimiter"))
           "%d/%m/%y %H:%M" "cumulative" None src
           (py_sorted file_key (glob fs src)) None None),
     with_header w (write_all d quantities (header_map w))).
Proof.
  intros HU Hok Hk Hdir Hne Hall.
  rewrite (init_section _ _ fs cfg d path w HU Hk).
  apply first_bad_None in Hok as ->.
  by rewrite (init_catalogue_ok _ _ _ _ _ src).
Qed.

(** C3, as the code has it.  When every file the pattern matches has a
    month abbreviation at the month's place, the catalogue holds exactly
    the files matched, in ascending order of the key (year fragment as a
    string, then number of the month), whatever the order of the
    directory listing; with keys that tell the files apart the catalogue
    is the same list for every listing order. *)
Theorem catalogue_sorted fs cfg d path w src :
  cfg !! "Units" = Some (Sect d) ->
  (forall q, unit_ok_ d q = true) ->
  keys_ok (header_map w) ->
  cfg !! "directory" = Some (Scalar src) ->
  glob fs src <> [] ->
  Forall month_ok (glob fs src) ->
  exists self w',
    init_ fs cfg path w = (Ok self, w') /\
    log_list self ≡ₚ glob fs src /\
    length (log_list self) = length (glob fs src) /\
    StronglySorted (by_key file_key) (log_list self) /\
    forall fs',
      glob fs' src ≡ₚ glob fs src ->
      exists self2 w2,
        init_ fs' cfg path w = (Ok self2, w2) /\
        log_list self2 ≡ₚ log_list self /\
        StronglySorted (by_key file_key) (log_list self2) /\
        ((forall x y, x ∈ glob fs src -> y ∈ glob fs src ->
            file_key x = file_key y -> x = y) ->
         log_list self2 = log_list self).
Proof.
  intros HU Hok Hk Hdir Hne Hall.
  eexists _, _. split; [by apply (init_ok _ _ d _ _ src)|].
  cbn [log_list]. split; [apply py_sorted_perm|].
  split; [by rewrite py_sorted_perm|].
  split; [apply py_sorted_sorted|].
  intros fs' Hp.
  assert (glob fs' src <> []) as Hne'.
  { intros E. rewrite E in Hp. by apply Permutation_nil_l in Hp. }
  assert (Forall month_ok (glob fs' src)) as Hall' by by rewrite Hp.
  eexists _, _. split; [by apply (init_ok _ _ d _ _ src)|].
  cbn [log_list]. split; [by rewrite !py_sorted_perm|].
  split; [apply py_sorted_sorted|].
  intros Hinj. symmetry. by apply py_sorted_unique.
Qed.

(** The catalogue of a construction that succeeds has no file twice
    when the directory has no entry twice. *)
Lemma init_log_list_NoDup fs cfg path w self w' names :
  keys_ok (header_map w) ->
  init_ fs cfg path w = (Ok self, w') ->
  fs !! source self = Some (Dir names) -> NoDup names ->
  log_list self <> [] /\ NoDup (log_list self).
Proof.
  intros Hk Hinit Hdir Hnd.
  destruct (init_success_inv _ _ _ _ _ _ _ _ Hk Hinit) as (d & _ & _ & _ & Hcat).
  destruct (init_catalogue_inv _ _ _ _ _ _ _ Hcat)
    as (src & _ & Hsrc & _ & Hne & Hll & _).
  subst src. rewrite Hll. split.
  - intros E. apply Hne. apply Permutation_nil_r. by rewrite <- E, py_sorted_perm.
  - rewrite py_sorted_perm. by eapply glob_NoDup.
Qed.

End CatalogueClaims.

Section Generator.

Context {FieldMap : Type}.

(** C8. Run to exhaustion, the generator yields the files of the
    catalogue in order.  At each yield [first_period] is true exactly when
    the file yielded is the first of the catalogue and [last_period]
    exactly when it is the last; the files of a catalogue being distinct,
    as the entries of a directory are, this is at the first and at the
    last position and nowhere else.  The one yield of a catalogue of one
    file has both flags true. *)
Theorem period_flags (self : Instance FieldMap) :
  (period_generator self).*1 = log_list self /\
  (forall i month inst,
     period_generator self !! i = Some (month, inst) ->
     log_list self !! i = Some month /\
     first_period inst = Some (bool_decide (Some month = head (log_list self))) /\
     last_period inst = Some (bool_decide (Some month = last (log_list self))) /\
     (NoDup (log_list self) ->
      first_period inst = Some (bool_decide (i = 0)) /\
      last_period inst = Some (bool_decide (S i = length (log_list self))))) /\
  (forall f, log_list self = [f] ->
     exists inst,
       period_generator self = [(f, inst)] /\
       first_period inst = Some true /\ last_period inst = Some true).
Proof.
  unfold period_generator. split; [|split].
  - rewrite <- list_fmap_compose. cbn. apply list_fmap_id.
  - intros i month inst Hi. rewrite list_lookup_fmap in Hi.
    destruct (log_list self !! i) as [m|] eqn:Hm; [|done].
    cbn in Hi. injection Hi as <- <-. split; [done|].
    cbn [first_period last_period set_flags]. split; [done|]. split; [done|].
    intros Hnd. split; f_equal.
    + apply bool_decide_ext. rewrite head_lookup. split.
      * intros H. symmetry in H. by eapply NoDup_lookup.
      * by intros ->.
    + apply bool_decide_ext. rewrite last_lookup. split.
      * intros H. symmetry in H.
        pose proof (NoDup_lookup _ _ _ _ Hnd Hm H) as Hi.
        apply lookup_lt_Some in Hm. lia.
      * intros Hlen. rewrite <- Hlen. by cbn.
  - intros f Hf. rewrite Hf. cbn. eexists. split; [done|].
    cbn [first_period last_period set_flags]. rewrite Hf. cbn.
    by rewrite !bool_decide_eq_true_2.
Qed.

End Generator.

(** ** The sample installation evaluated *)

Lemma units_metric_ok q : unit_ok units_sample units_metric q = true.
Proof. by destruct q. Qed.

Lemma units_us_ok q : unit_ok units_sample units_us q = true.
Proof. by destruct q. Qed.

Example glob_sample :
  glob fs_sample "/logs"
  = ["/logs/Feb16log.txt"; "/logs/Dec15log.txt"; "/logs/Jan16log.txt"].
Proof. reflexivity. Qed.

Example init_sample :
  exists self w,
    __init__ units_sample FieldMap_model fs_sample cfg_metric conf_path world0
    = (Ok self, w) /\
    log_list self
    = ["/logs/Dec15log.txt"; "/logs/Jan16log.txt"; "/logs/Feb16log.txt"] /\
    unit_of (header_map w) "cur_out_temp" = Some "degree_C" /\
    unit_of (header_map w) "cur_rain_rate" = Some "mm_per_hour".
Proof. eexists _, _. split; [vm_compute; reflexivity|]. by vm_compute. Qed.

Example init_sample_eq :
  __init__ units_sample FieldMap_model fs_sample cfg_metric conf_path world0
  = (Ok self_sample, w_metric).
Proof. vm_compute. reflexivity. Qed.

(** ** The claims at the sample installation *)

Lemma map_rebuilt_each_period_witness :
  exists self' w',
    run parseMap_model fs_sample self_sample w_metric
    = (Ok (self', reader_of fs_sample "." "," <$> log_list self_sample), w') /\
    length (map_builds w') = 3.
Proof.
  destruct (map_rebuilt_each_period parseMap_model fs_sample self_sample
              w_metric "." ","%char)
    as (self' & w' & Hrun & _ & Hlen & _).
  - reflexivity.
  - reflexivity.
  - repeat constructor.
  - exists self', w'. split; [exact Hrun|exact Hlen].
Defined.

(** C1 as stated fails: over the three periods of the sample the map is
    built three times, each time from the reader of the period at hand,
    and the map the instance holds at the end is the one built from the
    last period, whose reader is not that of the first. *)
Lemma map_built_once_counterexample :
  exists self' r1 r2 r3 w',
    2 <= length (log_list self_sample) /\
    run parseMap_model fs_sample self_sample w_metric
    = (Ok (self', [r1; r2; r3]), w') /\
    map_builds w' = [r1; r2; r3] /\
    length (map_builds w') <> 1 /\
    map self' = Some (parseMap_model (header_map w') self' "Cumulus" r3
                        cfg_metric) /\
    r3 <> r1.
Proof.
  eexists _, _, _, _, _. split; [cbn; lia|].
  split; [vm_compute; reflexivity|].
  split; [reflexivity|]. split; [discriminate|].
  split; [vm_compute; reflexivity|]. discriminate.
Qed.

Lemma unit_resolution_witness :
  (exists w',
     resolve units_sample Pressure cfg_metric conf_path world0 = (Ok tt, w') /\
     unit_of (header_map w') "cur_slp" = Some "hPa") /\
  resolve units_sample Temperature
    (<["Units" := Sect (<["temperature" := "kelvin"]> units_metric)]> cfg_metric)
    conf_path world0
  = (Raise (UnitError
              "Unknown units 'kelvin' specified for Cumulus temperature fields in /etc/weewx/import.conf."),
     world0).
Proof.
  split.
  - destruct (unit_resolution units_sample Pressure cfg_metric units_metric
                "hPa" conf_path world0) as [Hok _];
      [reflexivity|reflexivity|apply keys_ok_init|].
    destruct (Hok eq_refl) as (w' & Hres & Hall & _).
    exists w'. split; [exact Hres|]. cbn [unit_fields] in Hall.
    exact (Forall_inv Hall).
  - destruct (unit_resolution units_sample Temperature
                (<["Units" := Sect (<["temperature" := "kelvin"]> units_metric)]>
                   cfg_metric)
                (<["temperature" := "kelvin"]> units_metric)
                "kelvin" conf_path world0) as [_ Hbad];
      [reflexivity|reflexivity|apply keys_ok_init|].
    exact (proj1 (Hbad eq_refl)).
Defined.

Lemma catalogue_sorted_witness :
  exists self w',
    __init__ units_sample FieldMap_model fs_sample cfg_metric conf_path world0
    = (Ok self, w') /\
    log_list self ≡ₚ glob fs_sample "/logs" /\
    StronglySorted (by_key file_key) (log_list self).
Proof.
  destruct (catalogue_sorted units_sample FieldMap_model fs_sample cfg_metric
              units_metric conf_path world0 "/logs")
    as (self & w' & Hinit & Hperm & _ & Hsorted & _).
  - reflexivity.
  - apply units_metric_ok.
  - apply keys_ok_init.
  - reflexivity.
  - discriminate.
  - repeat constructor; by eexists.
  - exists self, w'. split; [exact Hinit|]. split; [exact Hperm|exact Hsorted].
Defined.

(** C3 as stated fails: a file that matches the pattern without a month
    abbreviation in its name ends construction with [ValueError], and no
    catalogue is built. *)
Lemma catalogue_counterexample :
  glob fs_stray "/logs" = ["/logs/Jan16log.txt"; "/logs/errorlog.txt"] /\
  strptime_b (PyStr.slice_from_end 12 9 "/logs/errorlog.txt") = None /\
  exists w',
    __init__ units_sample FieldMap_model fs_stray cfg_metric conf_path world0
    = (Raise ValueError, w').
Proof.
  split; [reflexivity|]. split; [reflexivity|].
  eexists. vm_compute. reflexivity.
Qed.

Lemma blank_lines_dropped_witness :
  exists self' rd w',
    getRawData parseMap_model fs_sample self_sample "/logs/Jan16log.txt" w_metric
    = (Ok (self', rd), w') /\
    rd_lines rd = ["01/01/16 00:00,5.2,80,2.1" +:+ nl;
                   "01/01/16 00:10,5.3,81,2.2" +:+ nl].
Proof.
  destruct (blank_lines_dropped parseMap_model fs_sample self_sample
              "/logs/Jan16log.txt" w_metric "." ","%char)
    as (self' & rd & w' & Hget & Hlines & _).
  - reflexivity.
  - reflexivity.
  - reflexivity.
  - exists self', rd, w'. split; [exact Hget|]. rewrite Hlines. reflexivity.
Defined.

Lemma first_delimiter_merges_witness :
  exists f0 f1 rest,
    PyStr.split "," (normalised "." ("01/01/16,00:00,5.2,80" +:+ nl))
    = Some (f0 :: f1 :: rest) /\
    clean_data (Scalar ".") (Scalar ",") ["01/01/16,00:00,5.2,80" +:+ nl]
    = Ok [cleaned "." "," ("01/01/16,00:00,5.2,80" +:+ nl)] /\
    PyStr.split "," (cleaned "." "," ("01/01/16,00:00,5.2,80" +:+ nl))
    = Some ((f0 +:+ " " +:+ f1) :: rest).
Proof.
  apply (first_delimiter_merges "." ","%char ("01/01/16,00:00,5.2,80" +:+ nl)).
  - discriminate.
  - discriminate.
  - reflexivity.
Defined.

Example merged_fields_ex :
  PyStr.split "," ("01/01/16,00:00,5.2,80" +:+ nl)
  = Some ["01/01/16"; "00:00"; "5.2"; "80" +:+ nl] /\
  PyStr.split "," (cleaned "." "," ("01/01/16,00:00,5.2,80" +:+ nl))
  = Some ["01/01/16 00:00"; "5.2"; "80" +:+ nl].
Proof. split; reflexivity. Qed.

(** C5 as stated fails: a line without the delimiter is one field before
    the clean-up and one field after it. *)
Lemma one_field_fewer_counterexample :
  clean_data (Scalar ".") (Scalar ",") ["end of log" +:+ nl]
  = Ok ["end of log" +:+ nl] /\
  PyStr.split "," ("end of log" +:+ nl) = Some ["end of log" +:+ nl] /\
  (length <$> PyStr.split "," (cleaned "." "," ("end of log" +:+ nl)))
  = (length <$> PyStr.split "," ("end of log" +:+ nl)).
Proof. repeat split; reflexivity. Qed.

Lemma rain_rate_unit_witness :
  let w' := (__init__ units_sample FieldMap_model fs_sample cfg_metric
               conf_path world0).2 in
  rain_units_dict !! "mm" = Some "mm_per_hour" /\
  unit_of (header_map w') "midnight_rain" = Some "mm" /\
  unit_of (header_map w') "cur_rain_rate" = Some "mm_per_hour".
Proof.
  destruct (rain_rate_unit units_sample FieldMap_model fs_sample cfg_metric
              units_metric conf_path world0 "mm")
    as (rate & Hrate & _ & Hmid & Hcur).
  - reflexivity.
  - apply units_metric_ok.
  - apply keys_ok_init.
  - reflexivity.
  - assert (rate = "mm_per_hour") as -> by (vm_compute in Hrate; congruence).
    split; [exact Hrate|]. split; [exact Hmid|exact Hcur].
Defined.

Lemma no_logs_found_witness :
  exists w',
    __init__ units_sample FieldMap_model fs_empty cfg_metric conf_path world0
    = (Raise (WeeImportIOError
                "No Cumulus monthly logs found in directory '/logs'."), w') /\
    opened w' = [].
Proof.
  destruct (no_logs_found units_sample FieldMap_model fs_empty cfg_metric
              units_metric conf_path world0 "/logs")
    as (w' & Hinit & _ & Hopened).
  - reflexivity.
  - apply units_metric_ok.
  - apply keys_ok_init.
  - reflexivity.
  - reflexivity.
  - exists w'. split; [exact Hinit|exact Hopened].
Defined.

Lemma period_flags_witness :
  (period_generator self_sample).*1 = log_list self_sample /\
  (forall i month inst,
     period_generator self_sample !! i = Some (month, inst) ->
     first_period inst = Some (bool_decide (i = 0)) /\
     last_period inst = Some (bool_decide (S i = 3))).
Proof.
  destruct (period_flags self_sample) as (Horder & Hflags & _).
  split; [exact Horder|].
  intros i month inst Hi.
  destruct (Hflags i month inst Hi) as (_ & _ & _ & Hpos).
  apply Hpos. apply (bool_decide_unpack _). vm_compute. exact I.
Defined.

Example init_us_eq :
  __init__ units_sample FieldMap_model fs_sample cfg_us conf_path w_metric
  = (Ok self_us, w_us).
Proof. vm_compute. reflexivity. Qed.

Lemma header_map_shared_witness :
  unit_of (self_header_map w_metric self_sample) "cur_out_temp"
  = Some "degree_C" /\
  unit_of (self_header_map w_us self_sample) "cur_out_temp"
  = Some "degree_F" /\
  unit_of (self_header_map w_us self_sample) "cur_rain_rate"
  = Some "inch_per_hour".
Proof.
  destruct (header_map_shared units_sample FieldMap_model
              fs_sample cfg_metric conf_path fs_sample cfg_us conf_path
              world0 self_sample w_metric self_us w_us
              keys_ok_init init_sample_eq init_us_eq)
    as (d1 & d2 & HU1 & HU2 & Hf1 & Hf2 & _ & _ & Hr2).
  assert (cfg_metric !! "Units" = Some (Sect units_metric)) as E1
    by reflexivity.
  assert (cfg_us !! "Units" = Some (Sect units_us)) as E2 by reflexivity.
  assert (d1 = units_metric) as -> by congruence.
  assert (d2 = units_us) as -> by congruence.
  split; [|split].
  - apply (Hf1 Temperature). cbn [unit_fields]. constructor.
  - apply (Hf2 Temperature). cbn [unit_fields]. constructor.
  - exact Hr2.
Defined.

Lemma missing_unit_key_witness :
  units_get (<["Units" := Sect (delete "rain" units_metric)]> cfg_metric) "rain"
  = Ok None /\
  exists w',
    __init__ units_sample FieldMap_model fs_sample
      (<["Units" := Sect (delete "rain" units_metric)]> cfg_metric)
      conf_path world0
    = (Raise (UnitError
                "Unknown units 'None' specified for Cumulus rain fields in /etc/weewx/import.conf."),
       w').
Proof.
  destruct (missing_unit_key units_sample FieldMap_model fs_sample
              (<["Units" := Sect (delete "rain" units_metric)]> cfg_metric)
              conf_path world0 keys_ok_init) as (_ & _ & Hsect).
  destruct (Hsect (delete "rain" units_metric) Rain eq_refl eq_refl)
    as (Hget & _ & _ & Hinit).
  split; [exact Hget|]. apply Hinit.
  intros q' Hq'. cbn [before] in Hq'.
  apply elem_of_cons in Hq' as [->|Hq']; [reflexivity|].
  apply elem_of_cons in Hq' as [->|Hq']; [reflexivity|].
  by apply elem_of_nil in Hq'.
Defined.

(** C10 as stated fails: a ['Units'] section that lacks the key of the
    pressure and declares a temperature unit that is not allowed makes
    construction fail for the temperature, with that unit in the message,
    and not with ['None'] for the pressure. *)
Lemma missing_unit_key_counterexample :
  let d : gmap string string := {["temperature" := "kelvin"]} in
  let cfg : gmap string cfg_value :=
    <["Units" := Sect d]> cfg_metric in
  d !! qkey Pressure = None /\
  __init__ units_sample FieldMap_model fs_sample cfg conf_path world0
  = (Raise (UnitError
              "Unknown units 'kelvin' specified for Cumulus temperature fields in /etc/weewx/import.conf."),
     world0) /\
  (__init__ units_sample FieldMap_model fs_sample cfg conf_path world0).1
  <> Raise (UnitError (unknown_units_msg Pressure None conf_path)).
Proof.
  split; [reflexivity|]. split; [vm_compute; reflexivity|].
  vm_compute. discriminate.
Qed.

(** ** Further properties of [getRawData] *)


Lemma has_char_app (c : ascii) (s t : string) :
  PyStr.has_char c (s +:+ t) = PyStr.has_char c s || PyStr.has_char c t.
Proof.
  induction s as [|a s IH]; [done|].
  rewrite app_cons_str. cbn [PyStr.has_char]. by rewrite IH, orb_assoc.
Qed.

(** The first occurrence of a one-character pattern, and it alone, is
    replaced. *)
Lemma replace_first_char (c : ascii) (new pre post : string) :
  PyStr.has_char c pre = false ->
  PyStr.replace (String c EmptyString) new (Some 1) (pre +:+ String c post)
  = pre +:+ new +:+ post.
Proof.
  intros Hpre.
  assert (PyStr.replace_go (String c EmptyString) new 0 (Some 1)
            (pre +:+ String c post) = pre +:+ new +:+ post) as Hgo.
  { induction pre as [|a pre IH].
    - change (EmptyString +:+ String c post) with (String c post).
      cbn [PyStr.replace_go]. rewrite prefix_char, Ascii.eqb_refl.
      cbn [PyStr.more Nat.eqb negb andb String.length Nat.sub PyStr.used Nat.pred].
      by rewrite replace_go_spent.
    - cbn [PyStr.has_char] in Hpre. apply orb_false_elim in Hpre as [Ha Hpre].
      rewrite !app_cons_str. cbn [PyStr.replace_go].
      rewrite prefix_char, Ha, andb_false_r. by rewrite IH. }
  destruct pre; exact Hgo.
Qed.

Lemma replace_no_char (c : ascii) (new : string) (count : option nat)
    (s : string) :
  PyStr.has_char c s = false ->
  PyStr.replace (String c EmptyString) new count s = s.
Proof.
  intros H. unfold PyStr.replace.
  destruct count as [[|n]|], s; try done; by apply replace_go_no_char.
Qed.

Lemma has_char_map_char_same (d : ascii) (s : string) :
  d <> "."%char -> PyStr.has_char d (map_char d s) = false.
Proof.
  intros Hd. induction s as [|a s IH]; [done|].
  cbn [map_char PyStr.has_char]. rewrite IH, orb_false_r.
  destruct (Ascii.eqb a d) eqn:E; [|done].
  apply Ascii.eqb_neq. congruence.
Qed.

Lemma length_map_char (d : ascii) (s : string) :
  String.length (map_char d s) = String.length s.
Proof. induction s as [|a s IH]; [done|]. cbn. by rewrite IH. Qed.

Lemma has_char_replace_space (d c : ascii) (count : option nat) (s : string) :
  d <> " "%char ->
  PyStr.has_char d s = false ->
  PyStr.has_char d (PyStr.replace (String c EmptyString) " " count s) = false.
Proof.
  intros Hd.
  assert (forall cnt, PyStr.has_char d s = false ->
            PyStr.has_char d
              (PyStr.replace_go (String c EmptyString) " " 0 cnt s) = false)
    as Hgo.
  { induction s as [|a s IH]; intros cnt Hs; [done|].
    cbn [PyStr.has_char] in Hs. apply orb_false_elim in Hs as [Ha Hs].
    cbn [PyStr.replace_go]. rewrite prefix_char.
    destruct (PyStr.more cnt && Ascii.eqb a c).
    - change (" " +:+ ?x) with (String " " x). cbn [PyStr.has_char].
      rewrite IH by done.
      assert (Ascii.eqb " " d = false) as ->
        by (apply Ascii.eqb_neq; congruence).
      done.
    - cbn [PyStr.has_char]. by rewrite Ha, IH. }
  intros Hs. unfold PyStr.replace.
  destruct count as [[|n]|], s; try done; by apply Hgo.
Qed.

Lemma length_replace_space (c : ascii) (count : option nat) (s : string) :
  String.length (PyStr.replace (String c EmptyString) " " count s)
  = String.length s.
Proof.
  assert (forall cnt,
            String.length
              (PyStr.replace_go (String c EmptyString) " " 0 cnt s)
            = String.length s) as Hgo.
  { induction s as [|a s IH]; intros cnt; [done|].
    cbn [PyStr.replace_go]. rewrite prefix_char.
    destruct (PyStr.more cnt && Ascii.eqb a c).
    - change (" " +:+ ?x) with (String " " x). cbn [String.length].
      by rewrite IH.
    - cbn [String.length]. by rewrite IH. }
  unfold PyStr.replace. destruct count as [[|n]|], s; try done; by apply Hgo.
Qed.

Section RawDataMore.

Context {FieldMap : Type}.
Variable parseMap :
  gmap string FieldSpec -> Instance FieldMap -> string -> Reader ->
  gmap string cfg_value -> FieldMap.


(** X2. A log that is empty or holds blank lines only is accepted: the
    reader is created over no line at all, and the map is still built
    from it. *)
Theorem blank_file_accepted fs (self : Instance FieldMap) period w dec c :
  decimal self = Scalar dec ->
  delimiter self = Scalar (String c EmptyString) ->
  isfile fs period = true ->
  Forall (fun row => normalised dec row = nl) (readlines fs period) ->
  exists self' w',
    getRawData parseMap fs self period w
    = (Ok (self', mkReader [] _field_list c), w') /\
    map self' = Some (parseMap (header_map w) self "Cumulus"
                        (mkReader [] _field_list c)
                        (cumulus_config_dict self)) /\
    map_builds w' = map_builds w ++ [mkReader [] _field_list c].
Proof.
  intros Hd Hc Hf Hall.
  assert (reader_of fs dec c period = mkReader [] _field_list c) as Hrd.
  { unfold reader_of, kept_lines. f_equal.
    induction Hall as [|row rows Hrow _ IH]; [done|].
    rewrite filter_cons, decide_False by (intros ?; done). exact IH. }
  eexists _, _. rewrite (getRawData_ok parseMap fs self period w dec c) by done.
  rewrite Hrd. done.
Qed.

(** X3. With a decimal separator of one character other than the dot and
    the space, no line the row parser is given holds the separator, and
    every such line is as long as the line it comes from. *)
Theorem no_decimal_separator_left fs (self : Instance FieldMap) period w d c :
  decimal self = Scalar (String d EmptyString) ->
  delimiter self = Scalar (String c EmptyString) ->
  isfile fs period = true ->
  d <> "."%char -> d <> " "%char ->
  exists self' rd w',
    getRawData parseMap fs self period w = (Ok (self', rd), w') /\
    Forall (fun line => PyStr.has_char d line = false) (rd_lines rd) /\
    String.length <$> rd_lines rd
    = String.length
        <$> filter (fun row => normalised (String d EmptyString) row <> nl)
              (readlines fs period).
Proof.
  intros Hd Hc Hf Hdot Hsp.
  eexists _, _, _. split; [by eapply getRawData_ok|].
  cbn [rd_lines reader_of]. unfold kept_lines. split.
  - apply Forall_fmap, Forall_forall. intros row _. unfold compose.
    unfold cleaned. apply has_char_replace_space; [done|].
    unfold normalised. rewrite replace_char_dot.
    by apply has_char_map_char_same.
  - rewrite <- list_fmap_compose. apply list_fmap_ext. intros i row _.
    unfold compose, cleaned, normalised. rewrite replace_char_dot.
    by rewrite length_replace_space, length_map_char.
Qed.

End RawDataMore.

(** X4. The clean-up of one line that is not blank, for a delimiter of one
    character.  When the normalised line holds the delimiter, the cleaned
    line is the normalised line with its first delimiter, and nothing
    else, turned into a space; when it holds none, the cleaned line is the
    normalised line itself. *)
Theorem first_delimiter_exact (dec : string) (c : ascii) (row : string) :
  normalised dec row <> nl ->
  (forall pre post,
     normalised dec row = pre +:+ String c post ->
     PyStr.has_char c pre = false ->
     clean_data (Scalar dec) (Scalar (String c EmptyString)) [row]
     = Ok [pre +:+ " " +:+ post]) /\
  (PyStr.has_char c (normalised dec row) = false ->
   clean_data (Scalar dec) (Scalar (String c EmptyString)) [row]
   = Ok [normalised dec row]).
Proof.
  intros Hnl. rewrite clean_data_scalar, filter_cons, decide_True by done.
  cbn [fmap list_fmap filter list_filter]. unfold cleaned. split.
  - intros pre post -> Hpre. by rewrite replace_first_char.
  - intros Hno. by rewrite replace_no_char.
Qed.

(** X5. When the decimal separator and the delimiter are one and the same
    character (other than the dot and the space), the decimal replacement
    uses up every delimiter: each cleaned line is a single field. *)
Theorem same_separator_one_field (c : ascii) (rows : list string) :
  c <> "."%char -> c <> " "%char ->
  exists lines,
    clean_data (Scalar (String c EmptyString)) (Scalar (String c EmptyString))
      rows = Ok lines /\
    Forall (fun line => PyStr.split (String c EmptyString) line = Some [line])
      lines.
Proof.
  intros Hdot Hsp. eexists. split; [apply clean_data_scalar|].
  apply Forall_fmap, Forall_forall. intros row _. unfold compose.
  cbn [PyStr.split]. f_equal. apply split_go_no_char.
  unfold cleaned. apply has_char_replace_space; [done|].
  unfold normalised. rewrite replace_char_dot.
  by apply has_char_map_char_same.
Qed.

(** ** Further properties of construction *)

Lemma lookup_put_units_ne f g u hm :
  f <> g -> put_units f u hm !! g = hm !! g.
Proof.
  intros Hne. unfold put_units. destruct (hm !! f); [|done].
  by rewrite lookup_insert_ne.
Qed.

Lemma header_frame_refl hm : header_frame hm hm.
Proof. by intros f. Qed.

Lemma header_frame_trans hm1 hm2 hm3 :
  header_frame hm1 hm2 -> header_frame hm2 hm3 -> header_frame hm1 hm3.
Proof.
  intros H12 H23 f. destruct (H12 f) as [Ha Hb], (H23 f) as [Hc Hd].
  split; [congruence|]. intros Hf. rewrite Hd, Hb; done.
Qed.

Lemma header_frame_put f u hm :
  f ∈ written_fields -> header_frame hm (put_units f u hm).
Proof.
  intros Hf g. split; [apply map_to_put|].
  intros Hg. apply lookup_put_units_ne. by intros ->.
Qed.

Lemma quiet_ret {A} (a : A) : quiet (ret a).
Proof. intros w. split; [apply header_frame_refl|done]. Qed.

Lemma quiet_raise {A} (e : exn) : quiet (@raise A e).
Proof. intros w. split; [apply header_frame_refl|done]. Qed.

Lemma quiet_lift {A} (r : res A) : quiet (lift r).
Proof. intros w. split; [apply header_frame_refl|done]. Qed.

Lemma quiet_bind {A B} (m : M A) (k : A -> M B) :
  quiet m -> (forall a, quiet (k a)) -> quiet (bind m k).
Proof.
  intros Hm Hk w. unfold bind. specialize (Hm w).
  destruct (m w) as [[a|e] w1]; cbn [snd] in *; [|done].
  destruct Hm as (Hf & Ho & Hb), (Hk a w1) as (Hf' & Ho' & Hb').
  split; [by eapply header_frame_trans|]. split; congruence.
Qed.

Lemma quiet_set_units f u : f ∈ written_fields -> quiet (set_units f u).
Proof.
  intros Hf w. unfold set_units.
  destruct (header_map w !! f) as [spec|] eqn:E; cbn [snd header_map opened map_builds].
  - split; [|done].
    replace (<[f:=mkFieldSpec (Some u) (map_to spec)]> (header_map w))
      with (put_units f u (header_map w)) by (unfold put_units; by rewrite E).
    by apply header_frame_put.
  - split; [apply header_frame_refl|done].
Qed.

Ltac in_written := apply (bool_decide_unpack _); exact I.

Section ConstructionMore.

Variable default_unit_format_dict : gmap string string.
Variable FieldMap : Type.

Notation "'init_'" := (__init__ default_unit_format_dict FieldMap).
Notation "'resolve_'" := (resolve default_unit_format_dict).
Notation "'unit_ok_'" := (unit_ok default_unit_format_dict).
Notation "'first_bad_'" := (first_bad default_unit_format_dict).

Lemma quiet_resolve q cfg path : quiet (resolve_ q cfg path).
Proof.
  destruct q; cbn [resolve];
    unfold resolve_temperature, resolve_pressure, resolve_rain, resolve_speed;
    destruct (units_get _ _) as [v|]; try apply quiet_raise;
    destruct (checked _ _) as [u|]; try apply quiet_raise;
    repeat (apply quiet_bind; [apply quiet_set_units; in_written|intros _]);
    try (apply quiet_set_units; in_written).
  destruct (rain_units_dict !! u);
    [apply quiet_set_units; in_written|apply quiet_raise].
Qed.

Lemma quiet_init fs cfg path : quiet (init_ fs cfg path).
Proof.
  rewrite init_split.
  repeat (apply quiet_bind; [apply quiet_resolve|intros _]).
  intros w. rewrite init_catalogue_world.
  split; [apply header_frame_refl|done].
Qed.

(** X6. Whatever the configuration, the directory and the outcome,
    [__init__] leaves the class-level header map with the keys and the
    destination names it had, changes no entry other than those of the
    eleven fields whose units it assigns, opens no file and builds no
    map. *)
Theorem construction_frame fs cfg path w :
  let w' := (init_ fs cfg path w).2 in
  (forall f, map_to <$> header_map w' !! f = map_to <$> header_map w !! f) /\
  (forall f, f ∉ written_fields -> header_map w' !! f = header_map w !! f) /\
  dom (header_map w') = dom (header_map w) /\
  opened w' = opened w /\
  map_builds w' = map_builds w.
Proof.
  destruct (quiet_init fs cfg path w) as (Hf & Ho & Hb). cbn zeta.
  split; [intros f; apply Hf|]. split; [intros f; apply Hf|].
  split; [|done]. apply set_eq. intros f. rewrite !elem_of_dom.
  destruct (Hf f) as [Hm _]. rewrite <- !fmap_is_Some with (f := map_to).
  by rewrite Hm.
Qed.

End ConstructionMore.



Lemma header_frame_write q u hm : header_frame hm (write_units q u hm).
Proof.
  unfold write_units.
  assert (Forall (fun fu : string * string => fu.1 ∈ written_fields)
            (targets q u)) as Hall.
  { destruct q; cbn [targets]; try destruct (rain_units_dict !! u);
      repeat constructor; cbn [fst]; in_written. }
  revert hm. induction Hall as [|fu l Hfu _ IH]; intros hm.
  - apply header_frame_refl.
  - cbn [foldl]. eapply header_frame_trans; [|apply IH].
    by apply header_frame_put.
Qed.

Lemma header_frame_write_all d qs hm : header_frame hm (write_all d qs hm).
Proof.
  unfold write_all. revert hm. induction qs as [|q qs IH]; intros hm.
  - apply header_frame_refl.
  - cbn [foldl]. eapply header_frame_trans; [|apply IH].
    apply header_frame_write.
Qed.

(** Two header maps with the same destination names and the same units
    are one map. *)
Lemma header_map_eq (hm1 hm2 : gmap string FieldSpec) :
  (forall f, map_to <$> hm1 !! f = map_to <$> hm2 !! f) ->
  (forall f, unit_of hm1 f = unit_of hm2 f) ->
  hm1 = hm2.
Proof.
  intros Hm Hu. apply map_eq. intros f.
  specialize (Hm f). specialize (Hu f). unfold unit_of in Hu.
  destruct (hm1 !! f) as [[u1 m1]|], (hm2 !! f) as [[u2 m2]|]; cbn in *;
    congruence.
Qed.

Section ConstructionErrors.

Variable default_unit_format_dict : gmap string string.
Variable FieldMap : Type.

Notation "'init_'" := (__init__ default_unit_format_dict FieldMap).
Notation "'unit_ok_'" := (unit_ok default_unit_format_dict).
Notation "'first_bad_'" := (first_bad default_unit_format_dict).

(** X7. When construction stops at the first quantity whose unit does not
    pass, the blocks before it have already written their units to the
    class-level header map, and they stay there; the fields of that
    quantity and of the later ones are as they were. *)
Theorem units_written_before_failure fs cfg d path w q :
  cfg !! "Units" = Some (Sect d) ->
  keys_ok (header_map w) ->
  first_bad_ d = Some q ->
  let w' := (init_ fs cfg path w).2 in
  (forall q' f, q' ∈ before q -> f ∈ unit_fields q' ->
     unit_of (header_map w') f = d !! qkey q') /\
  (forall q' f, q' ∉ before q -> f ∈ unit_fields q' ->
     header_map w' !! f = header_map w !! f).
Proof.
  intros HU Hk Hb. cbn zeta.
  rewrite (init_section _ _ fs cfg d path w HU Hk), Hb.
  cbn [snd header_map with_header].
  apply first_bad_Some in Hb as [_ Hbefore].
  assert (forall q', q' ∈ before q -> d !! qkey q' = Some (declared d q'))
    as Hdecl.
  { intros q' Hq'. destruct (unit_ok_true _ d q' (Hbefore q' Hq'))
      as (u & Hu & _ & Hd). by rewrite Hd. }
  unfold write_all, write_units. split.
  - intros q' f Hq' Hf. rewrite (Hdecl q' Hq').
    destruct q; cbn [before] in Hq';
      repeat (apply elem_of_cons in Hq' as [->|Hq']);
      try (by apply elem_of_nil in Hq');
      cbn [before foldl targets unit_fields] in *;
      try destruct (rain_units_dict !! declared d Rain);
      cbn [foldl fst snd];
      repeat (apply elem_of_cons in Hf as [->|Hf]; [by unit_lookup Hk|]);
      by apply elem_of_nil in Hf.
  - intros q' f Hq' Hf.
    destruct q, q'; cbn [before] in Hq';
      try (exfalso; apply Hq'; by repeat constructor);
      cbn [before foldl targets unit_fields] in *;
      try destruct (rain_units_dict !! declared d Rain);
      cbn [foldl fst snd];
      repeat (apply elem_of_cons in Hf as [->|Hf];
              [by rewrite ?lookup_put_units_ne by discriminate|]);
      by apply elem_of_nil in Hf.
Qed.

(** X8. A configuration whose units all pass and that has no ['directory']
    option: construction raises [ViolatedPrecondition] with the path of the
    import configuration in the message, after the four blocks have
    written their units to the class-level header map. *)
Theorem directory_missing fs cfg d path w :
  cfg !! "Units" = Some (Sect d) ->
  (forall q, unit_ok_ d q = true) ->
  keys_ok (header_map w) ->
  cfg !! "directory" = None ->
  exists w',
    init_ fs cfg path w
    = (Raise (ViolatedPrecondition
                ("Cumulus monthly logs directory not specified in '"
                   +:+ path +:+ "'.")), w') /\
    PyStr.contains path
      ("Cumulus monthly logs directory not specified in '" +:+ path +:+ "'.")
    = true /\
    (forall q f, f ∈ unit_fields q ->
       unit_of (header_map w') f = d !! qkey q).
Proof.
  intros HU Hok Hk Hdir.
  rewrite (init_section _ _ fs cfg d path w HU Hk).
  apply first_bad_None in Hok as Hnone. rewrite Hnone.
  unfold init_catalogue, bind, lift, get_directory. rewrite Hdir.
  eexists. split; [done|]. split; [apply contains_later, contains_here|].
  cbn [header_map with_header].
  by destruct (unit_of_write_all _ d (header_map w) Hk Hok) as [Hf _].
Qed.


(** X10. A second construction that succeeds with the same ['Units']
    section as the first leaves the class-level header map as the first
    left it, whatever else differs between the two configurations. *)
Theorem construction_idempotent fs1 cfg1 path1 fs2 cfg2 path2 w
    self1 w1 self2 w2 :
  keys_ok (header_map w) ->
  init_ fs1 cfg1 path1 w = (Ok self1, w1) ->
  init_ fs2 cfg2 path2 w1 = (Ok self2, w2) ->
  cfg1 !! "Units" = cfg2 !! "Units" ->
  header_map w2 = header_map w1.
Proof.
  intros Hk H1 H2 HU.
  destruct (init_success_inv _ _ _ _ _ _ _ _ Hk H1) as (d1 & HU1 & Hok1 & -> & _).
  assert (keys_ok (header_map
                     (with_header w (write_all d1 quantities (header_map w)))))
    as Hk1.
  { cbn [header_map with_header]. unfold write_all. cbn [foldl quantities].
    by do 4 apply keys_ok_write. }
  destruct (init_success_inv _ _ _ _ _ _ _ _ Hk1 H2) as (d2 & HU2 & Hok2 & -> & _).
  assert (d2 = d1) as -> by congruence.
  cbn [header_map with_header] in *.
  destruct (unit_of_write_all _ d1 (header_map w) Hk Hok1) as [Hf1 Hr1].
  destruct (unit_of_write_all _ d1 _ Hk1 Hok1) as [Hf2 Hr2].
  pose proof (header_frame_write_all d1 quantities
                (write_all d1 quantities (header_map w))) as Hframe.
  apply header_map_eq.
  - intros f. apply Hframe.
  - intros f. destruct (decide (f ∈ written_fields)) as [Hin|Hout].
    + unfold written_fields in Hin.
      repeat (apply elem_of_cons in Hin as [->|Hin]);
        try (by apply elem_of_nil in Hin).
      1-6: rewrite (Hf2 Temperature), (Hf1 Temperature); [done|in_written..].
      1: rewrite (Hf2 Pressure), (Hf1 Pressure); [done|in_written..].
      1: rewrite (Hf2 Rain), (Hf1 Rain); [done|in_written..].
      1: by rewrite Hr2, Hr1.
      1-2: rewrite (Hf2 Speed), (Hf1 Speed); [done|in_written..].
    + unfold unit_of. destruct (Hframe f) as [_ Hsame]. by rewrite Hsame.
Qed.

End ConstructionErrors.

(** ** Further properties of the catalogue and the generator *)








Section SortedMore.

Context {A : Type} (key : A -> string * nat).

Lemma StronglySorted_lookup_lt (R : relation A) (l : list A) i j x y :
  StronglySorted R l -> l !! i = Some x -> l !! j = Some y -> i < j -> R x y.
Proof.
  intros Hs. revert i j. induction Hs as [|a l Hl IH Ha]; intros i j Hi Hj Hlt;
    [done|].
  destruct j as [|j]; [lia|]. cbn in Hj. destruct i as [|i].
  - cbn in Hi. injection Hi as <-.
    rewrite Forall_forall in Ha. apply Ha. by eapply list_elem_of_lookup_2.
  - cbn in Hi. apply (IH i j); [done..|lia].
Qed.

(** An element whose key is strictly below that of another comes before
    it in the sorted list. *)
Lemma py_sorted_strict l i j x y :
  py_sorted key l !! i = Some x -> py_sorted key l !! j = Some y ->
  key_le (key y) (key x) = false -> i < j.
Proof.
  intros Hi Hj Hlt. destruct (decide (i < j)) as [|Hge]; [done|]. exfalso.
  destruct (decide (i = j)) as [->|Hne].
  - rewrite Hi in Hj. injection Hj as ->. by rewrite key_le_refl in Hlt.
  - assert (by_key key y x) as Hyx.
    { eapply (StronglySorted_lookup_lt (by_key key) _ j i);
        [apply py_sorted_sorted|done..|lia]. }
    unfold by_key in Hyx. congruence.
Qed.

Lemma insert_by_filter (k : string * nat) x l :
  filter (fun y => key y = k) (insert_by key x l)
  = filter (fun y => key y = k) (x :: l).
Proof.
  induction l as [|y l IH]; [done|]. cbn [insert_by].
  destruct (key_le (key x) (key y)) eqn:E; [done|].
  rewrite (filter_cons _ y), IH, !(filter_cons _ x), (filter_cons _ y).
  destruct (decide (key y = k)) as [Hy|Hy], (decide (key x = k)) as [Hx|Hx];
    try done.
  rewrite Hx, <- Hy, key_le_refl in E. done.
Qed.

(** The sort is stable: the elements of one key are in the result in the
    order they had in the input. *)
Lemma py_sorted_stable (k : string * nat) l :
  filter (fun y => key y = k) (py_sorted key l)
  = filter (fun y => key y = k) l.
Proof.
  induction l as [|x l IH]; [done|].
  cbn [py_sorted foldr].
  change (foldr (insert_by key) [] l) with (py_sorted key l).
  by rewrite insert_by_filter, !filter_cons, IH.
Qed.

End SortedMore.

Section CatalogueMore.

Variable default_unit_format_dict : gmap string string.
Variable FieldMap : Type.

Notation "'init_'" := (__init__ default_unit_format_dict FieldMap).

Lemma init_log_list fs cfg path w self w' :
  keys_ok (header_map w) ->
  init_ fs cfg path w = (Ok self, w') ->
  cfg !! "directory" = Some (Scalar (source self)) /\
  log_list self = py_sorted file_key (glob fs (source self)) /\
  Forall month_ok (glob fs (source self)) /\
  glob fs (source self) <> [].
Proof.
  intros Hk Hinit.
  destruct (init_success_inv _ _ _ _ _ _ _ _ Hk Hinit) as (d & _ & _ & _ & Hcat).
  destruct (init_catalogue_inv _ _ _ _ _ _ _ Hcat)
    as (src & Hdir & Hsrc & Hall & Hne & Hll & _).
  by subst src.
Qed.


(** X12. In the catalogue a file comes before every file whose year
    fragment is greater as a string, whatever their months, and before
    every file of the same year fragment and a later month. *)
Theorem catalogue_order fs cfg path w self w' i j a b :
  keys_ok (header_map w) ->
  init_ fs cfg path w = (Ok self, w') ->
  log_list self !! i = Some a ->
  log_list self !! j = Some b ->
  (String.compare (file_key a).1 (file_key b).1 = Lt -> i < j) /\
  ((file_key a).1 = (file_key b).1 -> (file_key a).2 < (file_key b).2 ->
   i < j).
Proof.
  intros Hk Hinit Hi Hj.
  destruct (init_log_list _ _ _ _ _ _ Hk Hinit) as (_ & Hll & _ & _).
  rewrite Hll in Hi, Hj. split.
  - intros Hlt. apply (py_sorted_strict file_key _ i j a b Hi Hj).
    unfold key_le. rewrite String.compare_antisym, Hlt. done.
  - intros Hy Hm. apply (py_sorted_strict file_key _ i j a b Hi Hj).
    unfold key_le. rewrite Hy, str_compare_refl. apply Nat.leb_gt. lia.
Qed.

(** X13. Files whose names give one and the same key are in the catalogue
    in the order the directory listing has them. *)
Theorem catalogue_stable fs cfg path w self w' (k : string * nat) :
  keys_ok (header_map w) ->
  init_ fs cfg path w = (Ok self, w') ->
  filter (fun p => file_key p = k) (log_list self)
  = filter (fun p => file_key p = k) (glob fs (source self)).
Proof.
  intros Hk Hinit.
  destruct (init_log_list _ _ _ _ _ _ Hk Hinit) as (_ & Hll & _ & _).
  rewrite Hll. apply py_sorted_stable.
Qed.

End CatalogueMore.

Section GeneratorMore.

Context {FieldMap : Type}.

Lemma first_yields_names (self : Instance FieldMap) :
  (first_yields self).*1
  = filter (fun m => Some m = head (log_list self)) (log_list self).
Proof.
  unfold first_yields, period_generator.
  assert (forall l : list string,
            (filter (fun y : string * Instance FieldMap =>
                       first_period y.2 = Some true)
               ((fun month => (month, set_flags self month)) <$> l)).*1
            = filter (fun m => Some m = head (log_list self)) l) as H;
    [|apply H].
  induction l as [|m l IH]; [done|].
  cbn [fmap list_fmap]. rewrite !filter_cons.
  cbn [snd first_period set_flags].
  destruct (decide (Some m = head (log_list self))) as [Hm|Hm].
  - rewrite bool_decide_eq_true_2 by done. rewrite decide_True by done.
    cbn [fmap list_fmap fst]. f_equal. exact IH.
  - rewrite bool_decide_eq_false_2 by done.
    rewrite decide_False by discriminate. exact IH.
Qed.

Lemma last_yields_names (self : Instance FieldMap) :
  (last_yields self).*1
  = filter (fun m => Some m = last (log_list self)) (log_list self).
Proof.
  unfold last_yields, period_generator.
  assert (forall l : list string,
            (filter (fun y : string * Instance FieldMap =>
                       last_period y.2 = Some true)
               ((fun month => (month, set_flags self month)) <$> l)).*1
            = filter (fun m => Some m = last (log_list self)) l) as H;
    [|apply H].
  induction l as [|m l IH]; [done|].
  cbn [fmap list_fmap]. rewrite !filter_cons.
  cbn [snd last_period set_flags].
  destruct (decide (Some m = last (log_list self))) as [Hm|Hm].
  - rewrite bool_decide_eq_true_2 by done. rewrite decide_True by done.
    cbn [fmap list_fmap fst]. f_equal. exact IH.
  - rewrite bool_decide_eq_false_2 by done.
    rewrite decide_False by discriminate. exact IH.
Qed.

Lemma filter_one (l : list string) (x : string) :
  NoDup l -> x ∈ l -> filter (fun m => Some m = Some x) l = [x].
Proof.
  induction 1 as [|a l Ha Hnd IH]; intros Hx; [by apply elem_of_nil in Hx|].
  rewrite filter_cons. destruct (decide (Some a = Some x)) as [[= ->]|Hne].
  - f_equal.
    destruct (filter (fun m => Some m = Some x) l) as [|z r] eqn:E; [done|].
    exfalso.
    assert (z ∈ filter (fun m => Some m = Some x) l) as Hz
      by (rewrite E; left).
    apply list_elem_of_filter in Hz as [[= ->] Hz]. done.
  - apply elem_of_cons in Hx as [->|Hx]; [done|]. by apply IH.
Qed.

(** X14. Over a catalogue of distinct files that is not empty, exactly one
    yield of the generator has [first_period] true, that of the first
    file, and exactly one has [last_period] true, that of the last. *)
Theorem one_first_one_last (self : Instance FieldMap) x y :
  NoDup (log_list self) ->
  head (log_list self) = Some x ->
  last (log_list self) = Some y ->
  (first_yields self).*1 = [x] /\ (last_yields self).*1 = [y].
Proof.
  intros Hnd Hx Hy. rewrite first_yields_names, last_yields_names, Hx, Hy.
  split; apply filter_one; try done.
  - by apply head_Some_elem_of.
  - by apply last_Some_elem_of.
Qed.

End GeneratorMore.

(** ** The further properties at the sample installation *)

Example init_century_eq :
  __init__ units_sample FieldMap_model fs_century cfg_metric conf_path world0
  = (Ok self_century, w_metric).
Proof. vm_compute. reflexivity. Qed.

Example init_odd_eq :
  __init__ units_sample FieldMap_model fs_odd cfg_metric conf_path world0
  = (Ok self_odd, w_metric).
Proof. vm_compute. reflexivity. Qed.


Lemma blank_file_accepted_witness :
  exists self' w',
    getRawData parseMap_model fs_odd self_odd "/logs/Dec15log.txt" w_metric
    = (Ok (self', mkReader [] _field_list ","), w') /\
    map_builds w' = [mkReader [] _field_list ","].
Proof.
  destruct (blank_file_accepted parseMap_model fs_odd self_odd
              "/logs/Dec15log.txt" w_metric "." ","%char)
    as (self' & w' & Hget & _ & Hb).
  - reflexivity.
  - reflexivity.
  - reflexivity.
  - repeat constructor.
  - exists self', w'. split; [exact Hget|exact Hb].
Defined.

Lemma first_delimiter_exact_witness :
  clean_data (Scalar ";") (Scalar ",") ["01/01/16,00:10,5;3,81,2;2" +:+ nl]
  = Ok ["01/01/16" +:+ " " +:+ "00:10,5.3,81,2.2" +:+ nl] /\
  clean_data (Scalar ";") (Scalar ",") ["end of log" +:+ nl]
  = Ok ["end of log" +:+ nl].
Proof.
  split.
  - destruct (first_delimiter_exact ";" ","%char
                ("01/01/16,00:10,5;3,81,2;2" +:+ nl)) as [Hfirst _];
      [discriminate|].
    apply (Hfirst "01/01/16" ("00:10,5.3,81,2.2" +:+ nl)); reflexivity.
  - destruct (first_delimiter_exact ";" ","%char ("end of log" +:+ nl))
      as [_ Hnone]; [discriminate|].
    apply Hnone. reflexivity.
Defined.

Lemma no_decimal_separator_left_witness :
  exists self' rd w',
    getRawData parseMap_model fs_odd (self_with ";" ",")
      "/logs/JAN16log.txt" w_metric = (Ok (self', rd), w') /\
    Forall (fun line => PyStr.has_char ";" line = false) (rd_lines rd).
Proof.
  destruct (no_decimal_separator_left parseMap_model fs_odd (self_with ";" ",")
              "/logs/JAN16log.txt" w_metric ";"%char ","%char)
    as (self' & rd & w' & Hget & Hall & _).
  - reflexivity.
  - reflexivity.
  - reflexivity.
  - discriminate.
  - discriminate.
  - exists self', rd, w'. split; [exact Hget|exact Hall].
Defined.

Lemma same_separator_one_field_witness :
  exists lines,
    clean_data (Scalar ";") (Scalar ";") ["01/01/16;00:10;5,3;81" +:+ nl]
    = Ok lines /\
    Forall (fun line => PyStr.split ";" line = Some [line]) lines.
Proof.
  apply (same_separator_one_field ";"%char); discriminate.
Defined.

Lemma units_written_before_failure_witness :
  let w' := (__init__ units_sample FieldMap_model fs_sample cfg_bad_speed
               conf_path world0).2 in
  unit_of (header_map w') "cur_out_temp" = Some "degree_C" /\
  unit_of (header_map w') "midnight_rain" = Some "mm" /\
  header_map w' !! "avg_wind_speed" = _header_map !! "avg_wind_speed".
Proof.
  destruct (units_written_before_failure units_sample FieldMap_model fs_sample
              cfg_bad_speed (<["speed" := "warp"]> units_metric) conf_path
              world0 Speed) as [Hwritten Hkept].
  - reflexivity.
  - apply keys_ok_init.
  - reflexivity.
  - split; [|split].
    + apply (Hwritten Temperature); [by repeat constructor|by constructor].
    + apply (Hwritten Rain); [by repeat constructor|by constructor].
    + apply (Hkept Speed); [|by constructor].
      cbn [before]. intros H.
      repeat (apply elem_of_cons in H as [H|H]; [discriminate|]).
      by apply elem_of_nil in H.
Defined.

Lemma directory_missing_witness :
  exists w',
    __init__ units_sample FieldMap_model fs_sample cfg_no_directory conf_path
      world0
    = (Raise (ViolatedPrecondition
                "Cumulus monthly logs directory not specified in '/etc/weewx/import.conf'."),
       w') /\
    unit_of (header_map w') "cur_slp" = Some "hPa".
Proof.
  destruct (directory_missing units_sample FieldMap_model fs_sample
              cfg_no_directory units_metric conf_path world0)
    as (w' & Hinit & _ & Hunits).
  - reflexivity.
  - apply units_metric_ok.
  - apply keys_ok_init.
  - reflexivity.
  - exists w'. split; [exact Hinit|].
    apply (Hunits Pressure). by constructor.
Defined.


Lemma construction_idempotent_witness :
  exists self2 w2,
    __init__ units_sample FieldMap_model fs_century cfg_metric conf_path
      w_metric = (Ok self2, w2) /\
    header_map w2 = header_map w_metric.
Proof.
  destruct (__init__ units_sample FieldMap_model fs_century cfg_metric
              conf_path w_metric) as [[self2|e] w2] eqn:H2;
    [|vm_compute in H2; discriminate].
  exists self2, w2. split; [reflexivity|].
  exact (construction_idempotent units_sample FieldMap_model
           fs_sample cfg_metric conf_path fs_century cfg_metric conf_path
           world0 self_sample w_metric self2 w2
           keys_ok_init init_sample_eq H2 eq_refl).
Defined.


(** The log of January '00 comes before those of November and December '99. *)
Lemma catalogue_order_witness :
  log_list self_century !! 0 = Some "/logs/Jan00log.txt" /\
  log_list self_century !! 2 = Some "/logs/Dec99log.txt" /\
  0 < 2.
Proof.
  split; [reflexivity|]. split; [reflexivity|].
  apply (proj1 (catalogue_order units_sample FieldMap_model fs_century
                  cfg_metric conf_path world0 self_century w_metric 0 2
                  "/logs/Jan00log.txt" "/logs/Dec99log.txt"
                  keys_ok_init init_century_eq eq_refl eq_refl)).
  reflexivity.
Defined.

Lemma catalogue_stable_witness :
  filter (fun p => file_key p = ("16", 1)) (log_list self_odd)
  = ["/logs/JAN16log.txt"; "/logs/Jan16log.txt"].
Proof.
  rewrite (catalogue_stable units_sample FieldMap_model fs_odd cfg_metric
             conf_path world0 self_odd w_metric ("16", 1)
             keys_ok_init init_odd_eq).
  reflexivity.
Defined.

Lemma one_first_one_last_witness :
  (first_yields self_sample).*1 = ["/logs/Dec15log.txt"] /\
  (last_yields self_sample).*1 = ["/logs/Feb16log.txt"].
Proof.
  apply (one_first_one_last self_sample).
  - apply (bool_decide_unpack _). vm_compute. exact I.
  - reflexivity.
  - reflexivity.
Defined.
